(** * trends_collector.py: a shallow embedding and its properties

    The collector asks a search-trends service for the trending queries of
    each configured region, reshapes every answer into a fixed record and
    writes the whole run, plus a reduced projection of it, as two JSON files.

    The program works on dynamically typed documents (decoded YAML and JSON),
    so the embedding has one type of Python values, [pyval], and the
    operations of the source ([d.get(k, default)], [d[k]], [x[:n]], [len],
    iteration, truth testing) are functions on it that raise what Python
    raises.  Effects are threaded through a state-and-exception monad [M]
    over a [world]: clock readings, requests sent, pauses and files written.
    The search client, the clock and the file system are external; they
    enter through the class [Services].

    Scope of the value universe: mapping keys are strings, a string is a
    sequence of one-byte characters, and a float is the rational it denotes.
    Text beyond one-byte characters is carried as its UTF-8 bytes, which
    shows only where a string is sliced, measured or iterated.  Every
    document of the universe can be serialised and encoded: what Python's
    [str] can hold and UTF-8 cannot write (a lone surrogate) is outside it,
    so writing a document fails only when its path cannot be opened.
    The messages that the [logging] calls of the source write go to a side
    channel, never raise and never touch the data; they are left out, and so
    is the content of the log file.  Opening the log file is not:
    [setup_logging] fails when it cannot be opened. *)

From Stdlib Require Import QArith_base Ascii.
From stdpp Require Import base strings pretty list gmap.

Local Open Scope Z_scope.

(** ** Python values *)

#[warnings="-register-all"]
Inductive pyval : Type :=
| PNone
| PBool (b : bool)
| PInt (z : Z)
| PFloat (q : Q)
| PStr (s : string)
| PList (l : list pyval)
| PDict (d : list (string * pyval)).

(** A [dict] keeps its keys in insertion order, each key once. *)
Abbreviation dict := (list (string * pyval)).

Definition type_name (v : pyval) : string :=
  match v with
  | PNone => "NoneType"
  | PBool _ => "bool"
  | PInt _ => "int"
  | PFloat _ => "float"
  | PStr _ => "str"
  | PList _ => "list"
  | PDict _ => "dict"
  end.

(** Truth value of an object, as tested by [if x] and [not x]. *)
Definition truthy (v : pyval) : bool :=
  match v with
  | PNone => false
  | PBool b => b
  | PInt z => negb (z =? 0)
  | PFloat q => negb (Qnum q =? 0)
  | PStr s => negb (String.eqb s "")
  | PList l => match l with [] => false | _ => true end
  | PDict d => match d with [] => false | _ => true end
  end.

(** ** Exceptions and outcomes *)

Inductive exc_class : Type :=
| AttributeError | TypeError | KeyError | IndexError | ValueError | OSError
| ClientError.   (* any other subclass of Exception, raised by the client *)

(** An instance of [Exception]: its class and [str(e)]. *)
Record exn : Type := Exn { exc_type : exc_class; exc_str : string }.

(** What evaluating an expression gives.  [Unmodelled] marks the few inputs
    whose Python behaviour lies outside the value universe above (a key
    that is not a string, a file opened by descriptor number). *)
Inductive outcome (A : Type) : Type :=
| Ok (a : A)
| Raise (e : exn)
| Unmodelled.
Arguments Ok {A} a.
Arguments Raise {A} e.
Arguments Unmodelled {A}.

Definition obind {A B} (o : outcome A) (k : A -> outcome B) : outcome B :=
  match o with
  | Ok a => k a
  | Raise e => Raise e
  | Unmodelled => Unmodelled
  end.

Declare Scope py_scope.
Delimit Scope py_scope with py.
Notation "x <~ e ;; k" := (obind e (fun x => k))
  (at level 100, e at next level, right associativity) : py_scope.
Local Open Scope py_scope.

Definition quote (s : string) : string := "'" +:+ s +:+ "'".

Definition no_attribute (v : pyval) (attr : string) : exn :=
  Exn AttributeError (quote (type_name v) +:+ " object has no attribute " +:+ quote attr).

(** ** Mappings *)

Fixpoint dict_lookup (k : string) (d : dict) : option pyval :=
  match d with
  | [] => None
  | (k', v) :: d' => if String.eqb k k' then Some v else dict_lookup k d'
  end.

(** [k in d] *)
Definition dict_mem (k : string) (d : dict) : bool :=
  match dict_lookup k d with Some _ => true | None => false end.

(** [d[k] = v]: an existing key keeps its place, a new key goes last. *)
Fixpoint dict_set (k : string) (v : pyval) (d : dict) : dict :=
  match d with
  | [] => [(k, v)]
  | (k', v') :: d' =>
      if String.eqb k k' then (k, v) :: d' else (k', v') :: dict_set k v d'
  end.

Definition dict_keys (d : dict) : list string := d.*1.

(** [d.get(k, default)] on a dict *)
Definition dict_get (k : string) (default : pyval) (d : dict) : pyval :=
  match dict_lookup k d with Some v => v | None => default end.

(** [x.get(k, default)]: only a dict has the method. *)
Definition py_get (x : pyval) (k : string) (default : pyval) : outcome pyval :=
  match x with
  | PDict d => Ok (dict_get k default d)
  | _ => Raise (no_attribute x "get")
  end.

(** [x[k]] with a string subscript *)
Definition py_getitem (x : pyval) (k : string) : outcome pyval :=
  match x with
  | PDict d =>
      match dict_lookup k d with
      | Some v => Ok v
      | None => Raise (Exn KeyError (quote k))
      end
  | PList _ => Raise (Exn TypeError "list indices must be integers or slices, not str")
  | PStr _ => Raise (Exn TypeError "string indices must be integers, not 'str'")
  | _ => Raise (Exn TypeError (quote (type_name x) +:+ " object is not subscriptable"))
  end.

(** ** Sequences *)

Fixpoint chars (s : string) : list pyval :=
  match s with
  | EmptyString => []
  | String c s' => PStr (String c EmptyString) :: chars s'
  end.

(** The items a [for] loop visits. *)
Definition py_iter (x : pyval) : outcome (list pyval) :=
  match x with
  | PList l => Ok l
  | PStr s => Ok (chars s)
  | PDict d => Ok (PStr <$> dict_keys d)
  | _ => Raise (Exn TypeError (quote (type_name x) +:+ " object is not iterable"))
  end.

(** [len(x)] *)
Definition py_len (x : pyval) : outcome Z :=
  match x with
  | PList l => Ok (Z.of_nat (length l))
  | PStr s => Ok (Z.of_nat (String.length s))
  | PDict d => Ok (Z.of_nat (length d))
  | _ => Raise (Exn TypeError ("object of type " +:+ quote (type_name x) +:+ " has no len()"))
  end.

(** The stop index of a slice: [None], or an object with [__index__]. *)
Definition slice_stop (n : pyval) : outcome (option Z) :=
  match n with
  | PNone => Ok None
  | PInt z => Ok (Some z)
  | PBool b => Ok (Some (if b then 1 else 0))
  | _ => Raise (Exn TypeError
           "slice indices must be integers or None or have an __index__ method")
  end.

(** [l[:stop]] on a sequence of known length: a negative stop counts from
    the end and is clipped at the start. *)
Definition take_upto {A} (stop : option Z) (l : list A) : list A :=
  match stop with
  | None => l
  | Some z =>
      if 0 <=? z then take (Z.to_nat z) l
      else take (Z.to_nat (Z.of_nat (length l) + z)) l
  end.

Definition take_string (stop : option Z) (s : string) : string :=
  String.string_of_list_ascii (take_upto stop (String.list_ascii_of_string s)).

(** [x[:n]] *)
Definition py_slice_to (x n : pyval) : outcome pyval :=
  match x with
  | PList l => stop <~ slice_stop n ;; Ok (PList (take_upto stop l))
  | PStr s => stop <~ slice_stop n ;; Ok (PStr (take_string stop s))
  | PDict _ => Raise (Exn TypeError "unhashable type: 'slice'")
  | _ => Raise (Exn TypeError (quote (type_name x) +:+ " object is not subscriptable"))
  end.

(** ** Strings *)

(** [old in s] for strings: [old] occurs somewhere in [s]. *)
Fixpoint str_contains (old s : string) : bool :=
  String.prefix old s ||
  match s with
  | EmptyString => false
  | String _ s' => str_contains old s'
  end.

(** Left-to-right scan of [str.replace]: [skip] counts the characters of an
    occurrence just replaced that are still to be stepped over. *)
Fixpoint replace_from (old new : string) (skip : nat) (s : string) : string :=
  match s with
  | EmptyString => EmptyString
  | String c s' =>
      match skip with
      | S k => replace_from old new k s'
      | O =>
          if String.prefix old s
          then new +:+ replace_from old new (String.length old - 1) s'
          else String c (replace_from old new 0 s')
      end
  end.

Fixpoint insert_after_each (new s : string) : string :=
  match s with
  | EmptyString => EmptyString
  | String c s' => String c (new +:+ insert_after_each new s')
  end.

(** [s.replace(old, new)]: every non-overlapping occurrence, leftmost first;
    an empty [old] matches before every character and at the end. *)
Definition str_replace (old new s : string) : string :=
  match old with
  | EmptyString => new +:+ insert_after_each new s
  | _ => replace_from old new 0 s
  end.

(** [x.replace(old, new)] *)
Definition py_replace (x : pyval) (old new : string) : outcome pyval :=
  match x with
  | PStr s => Ok (PStr (str_replace old new s))
  | _ => Raise (no_attribute x "replace")
  end.

Definition is_str (k : string) (v : pyval) : bool :=
  match v with PStr s => String.eqb k s | _ => false end.

(** [k in x] for a string [k] *)
Definition py_contains (k : string) (x : pyval) : outcome bool :=
  match x with
  | PDict d => Ok (dict_mem k d)
  | PList l => Ok (existsb (is_str k) l)
  | PStr s => Ok (str_contains k s)
  | _ => Raise (Exn TypeError
           ("argument of type " +:+ quote (type_name x) +:+ " is not iterable"))
  end.

(** An object used as a mapping key. *)
Definition py_key (x : pyval) : outcome string :=
  match x with
  | PStr s => Ok s
  | PList _ | PDict _ =>
      Raise (Exn TypeError ("unhashable type: " +:+ quote (type_name x)))
  | _ => Unmodelled
  end.

Fixpoint join_loop (sep : string) (i : nat) (items : list pyval) : outcome string :=
  match items with
  | [] => Ok EmptyString
  | item :: rest =>
      match item with
      | PStr s =>
          match rest with
          | [] => Ok s
          | _ => tail <~ join_loop sep (S i) rest ;; Ok (s +:+ sep +:+ tail)
          end
      | _ => Raise (Exn TypeError
               ("sequence item " +:+ pretty i +:+ ": expected str instance, "
                +:+ type_name item +:+ " found"))
      end
  end.

(** [sep.join(x)] *)
Definition py_join (sep : string) (x : pyval) : outcome pyval :=
  match py_iter x with
  | Ok items => s <~ join_loop sep 0 items ;; Ok (PStr s)
  | Raise _ => Raise (Exn TypeError "can only join an iterable")
  | Unmodelled => Unmodelled
  end.

(** [x[i]] with an integer subscript [0 <= i < len(x)] *)
Definition py_index (x : pyval) (i : nat) : outcome pyval :=
  match x with
  | PList l =>
      match l !! i with
      | Some v => Ok v
      | None => Raise (Exn IndexError "list index out of range")
      end
  | PStr s =>
      match chars s !! i with
      | Some v => Ok v
      | None => Raise (Exn IndexError "string index out of range")
      end
  | PDict _ => Raise (Exn KeyError (pretty i))
  | _ => Raise (Exn TypeError (quote (type_name x) +:+ " object is not subscriptable"))
  end.

(** ** The world and the monad of effects *)

Record world : Type := World {
  readings : nat;                (* clock readings taken so far *)
  requests : list pyval;         (* parameters of the requests sent, oldest first *)
  slept : Z;                     (* seconds spent in [time.sleep] *)
  files : gmap string pyval      (* documents written, by path *)
}.

Definition M (A : Type) : Type := world -> outcome A * world.

Definition ret {A} (a : A) : M A := fun w => (Ok a, w).

Definition bind {A B} (m : M A) (k : A -> M B) : M B :=
  fun w =>
    match m w with
    | (Ok a, w') => k a w'
    | (Raise e, w') => (Raise e, w')
    | (Unmodelled, w') => (Unmodelled, w')
    end.

Definition lift {A} (o : outcome A) : M A := fun w => (o, w).

(** [try: body except Exception as e: handler e] *)
Definition try_except {A} (body : M A) (handler : exn -> M A) : M A :=
  fun w =>
    match body w with
    | (Raise e, w') => handler e w'
    | r => r
    end.

Notation "x <- m ;; k" := (bind m (fun x => k))
  (at level 100, m at next level, right associativity) : py_scope.
Notation "m ;;; k" := (bind m (fun _ => k))
  (at level 100, right associativity) : py_scope.

(** What the client does with a request: the decoded JSON object of the
    response, or the exception raised. *)
Inductive reply : Type :=
| Response (results : dict)
| Failure (e : exn).

(** The external collaborators: the text of the n-th clock reading, what the
    search client does with the n-th request, and the error, if any, with
    which the file system refuses to open a path for writing. *)
Class Services : Type := {
  isoformat : nat -> string;
  client : nat -> pyval -> reply;
  refused : string -> option exn
}.

(** The world after one more clock reading, one more request, a pause. *)
Definition tick (w : world) : world :=
  World (S (readings w)) (requests w) (slept w) (files w).

Definition sent (params : pyval) (w : world) : world :=
  World (readings w) (requests w ++ [params]) (slept w) (files w).

Definition paused (secs : Z) (w : world) : world :=
  World (readings w) (requests w) (slept w + secs) (files w).

Definition written (path : string) (data : pyval) (w : world) : world :=
  World (readings w) (requests w) (slept w) (<[path := data]> (files w)).

(** [time.sleep(secs)] *)
Definition time_sleep (secs : Z) : M unit := fun w => (Ok tt, paused secs w).

Record TrendsCollector : Type := Collector {
  config : pyval;
  api_key : pyval
}.

(** [__init__] from the parsed document that [load_config] returned to the
    check of the key (lines 19-22); the call of [setup_logging] that ends
    it (line 23) is sequenced after it in [TrendsCollector_new]. *)
Definition TrendsCollector_init (loaded : pyval) : outcome TrendsCollector :=
  key <~ py_get loaded "serpapi_key" PNone ;;
  if truthy key then Ok (Collector loaded key)
  else Raise (Exn ValueError "Brak serpapi_key w pliku konfiguracyjnym!").

Definition source_name : pyval := PStr "SerpAPI Google Trends".
Definition note_text : pyval :=
  PStr "Global trending searches (region-specific may not be available)".
Definition no_data_message : pyval := PStr "Brak danych w odpowiedzi SerpAPI".

(** [for x in items: out.append(body(x))]; the first exception ends it. *)
Fixpoint append_each (body : pyval -> outcome pyval) (items out : list pyval)
  : outcome (list pyval) :=
  match items with
  | [] => Ok out
  | x :: rest => y <~ body x ;; append_each body rest (out ++ [y])
  end.

(** The record built from one trending item (lines 75-83). *)
Definition trend_data (trend : pyval) : outcome pyval :=
  query <~ py_get trend "query" (PStr "") ;;
  search_volume <~ py_get trend "search_volume" (PInt 0) ;;
  increase_percentage <~ py_get trend "increase_percentage" (PInt 0) ;;
  active <~ py_get trend "active" (PBool true) ;;
  categories <~ py_get trend "categories" (PList []) ;;
  related_queries <~ py_get trend "trend_breakdown" (PList []) ;;
  start_timestamp <~ py_get trend "start_timestamp" (PInt 0) ;;
  Ok (PDict [("query", query);
             ("search_volume", search_volume);
             ("increase_percentage", increase_percentage);
             ("active", active);
             ("categories", categories);
             ("related_queries", related_queries);
             ("start_timestamp", start_timestamp)]).

(** [for trend in trending_list: ... .append(trend_data)] *)
Definition trends_loop (trending_list trending_searches : list pyval)
  : outcome (list pyval) :=
  append_each trend_data trending_list trending_searches.

(** [self.config.get('trending_searches', {}).get('count', 20)] *)
Definition configured_count (self : TrendsCollector) : outcome pyval :=
  section <~ py_get (config self) "trending_searches" (PDict []) ;;
  py_get section "count" (PInt 20).

(** [self.config.get('trending_searches', {}).get('enabled', False)] *)
Definition configured_enabled (self : TrendsCollector) : outcome pyval :=
  section <~ py_get (config self) "trending_searches" (PDict []) ;;
  py_get section "enabled" (PBool false).

(** [trending_data] as first built (lines 61-68). *)
Definition trending_record (region_code region_name collection_time : pyval) : dict :=
  [("region_name", region_name);
   ("region_code", region_code);
   ("collection_time", collection_time);
   ("trending_searches", PList []);
   ("source", source_name);
   ("note", note_text)].

(** The record returned when the collection failed (lines 97-103). *)
Definition failure_record (region_code region_name : pyval) (e : exn)
    (collection_time : pyval) : pyval :=
  PDict [("region_name", region_name);
         ("region_code", region_code);
         ("error", PStr (exc_str e));
         ("collection_time", collection_time);
         ("source", source_name)].

(** The response has a [trending_searches] entry (lines 71-84). *)
Definition trending_found (self : TrendsCollector) (results trending_data : dict)
  : outcome pyval :=
  count <~ configured_count self ;;
  found <~ py_getitem (PDict results) "trending_searches" ;;
  trending_list <~ py_slice_to found count ;;
  items <~ py_iter trending_list ;;
  trending_searches <~ trends_loop items [] ;;
  Ok (PDict (dict_set "trending_searches" (PList trending_searches) trending_data)).

(** The response has none (lines 89-91). *)
Definition trending_missing (results trending_data : dict) : pyval :=
  let trending_data := dict_set "error" no_data_message trending_data in
  let trending_data :=
    match dict_lookup "error" results with
    | Some e => dict_set "api_error" e trending_data
    | None => trending_data
    end in
  PDict trending_data.

(** The [metadata] of a run (lines 187-195). *)
Definition run_metadata (collection_time keywords : pyval) (total_regions : Z)
    (timeframe trending_enabled : pyval) : pyval :=
  PDict [("collection_time", collection_time);
         ("keywords", keywords);
         ("total_regions", PInt total_regions);
         ("timeframe", timeframe);
         ("trending_searches_enabled", trending_enabled);
         ("source", source_name);
         ("api_usage_note", PStr "Each request uses your SerpAPI quota")].

(** [all_data] (lines 186-197). *)
Definition collection_run (metadata : pyval) (trending_searches_data : list pyval)
  : dict :=
  [("metadata", metadata); ("trending_searches_data", PList trending_searches_data)].

(** The category of one record in the reduced output (line 257). *)
Definition trend_category (trend : pyval) : outcome pyval :=
  categories <~ py_get trend "categories" PNone ;;
  if truthy categories then
    categories <~ py_get trend "categories" (PList [PDict []]) ;;
    first <~ py_index categories 0 ;;
    py_get first "name" (PStr "Unknown")
  else Ok (PStr "Unknown").

Definition simple_query (trend : pyval) : outcome pyval :=
  query <~ py_get trend "query" PNone ;;
  search_volume <~ py_get trend "search_volume" PNone ;;
  increase_percentage <~ py_get trend "increase_percentage" PNone ;;
  category <~ trend_category trend ;;
  Ok (PDict [("query", query);
             ("search_volume", search_volume);
             ("increase_percentage", increase_percentage);
             ("category", category)]).

Definition queries_loop (trends trending_queries : list pyval)
  : outcome (list pyval) :=
  append_each simple_query trends trending_queries.

Definition simple_region (region_data : pyval) : outcome pyval :=
  region_name <~ py_get region_data "region_name" PNone ;;
  region_code <~ py_get region_data "region_code" PNone ;;
  trending_searches <~ py_get region_data "trending_searches" (PList []) ;;
  trends <~ py_iter trending_searches ;;
  trending_queries <~ queries_loop trends [] ;;
  Ok (PDict [("region_name", region_name);
             ("region_code", region_code);
             ("trending_queries", PList trending_queries)]).

Definition simple_regions_loop (data regions : list pyval)
  : outcome (list pyval) :=
  append_each simple_region data regions.

Definition create_simple_format (data : pyval) : outcome pyval :=
  metadata <~ py_get data "metadata" (PDict []) ;;
  collection_time <~ py_get metadata "collection_time" PNone ;;
  trending_searches_data <~ py_get data "trending_searches_data" (PList []) ;;
  items <~ py_iter trending_searches_data ;;
  regions <~ simple_regions_loop items [] ;;
  Ok (PDict [("collection_time", collection_time); ("regions", PList regions)]).

(** Interest over time: one date's row, filled keyword by keyword
    (lines 152-154). *)
Fixpoint keywords_loop (values : pyval) (i : nat) (keywords : list pyval) (row : dict)
  : outcome dict :=
  match keywords with
  | [] => Ok row
  | keyword :: rest =>
      n <~ py_len values ;;
      row <~ (if Z.of_nat i <? n then
                item <~ py_index values i ;;
                value <~ py_get item "value" (PInt 0) ;;
                k <~ py_key keyword ;;
                Ok (dict_set k value row)
              else Ok row) ;;
      keywords_loop values (S i) rest row
  end.

(** [for data_point in timeline: ...] (lines 146-154) *)
Fixpoint timeline_loop (keywords : pyval) (timeline : list pyval) (interest : dict)
  : outcome dict :=
  match timeline with
  | [] => Ok interest
  | data_point :: rest =>
      date_str <~ py_get data_point "date" (PStr "") ;;
      values <~ py_get data_point "values" (PList []) ;;
      interest <~ (if truthy date_str && truthy values then
                     date <~ py_key date_str ;;
                     kws <~ py_iter keywords ;;
                     row <~ keywords_loop values 0 kws [] ;;
                     Ok (dict_set date (PDict row) interest)
                   else Ok interest) ;;
      timeline_loop keywords rest interest
  end.

(** [for keyword in keywords: if keyword in related: ...] (lines 158-160) *)
Fixpoint related_loop (related : pyval) (keywords : list pyval) (out : dict)
  : outcome dict :=
  match keywords with
  | [] => Ok out
  | keyword :: rest =>
      k <~ py_key keyword ;;
      present <~ py_contains k related ;;
      out <~ (if present then v <~ py_getitem related k ;; Ok (dict_set k v out)
              else Ok out) ;;
      related_loop related rest out
  end.

Definition related_section (name : string) (results : dict) (keywords : pyval)
  : outcome dict :=
  match dict_lookup name results with
  | Some related => kws <~ py_iter keywords ;; related_loop related kws []
  | None => Ok []
  end.

Definition interest_section (results : dict) (keywords : pyval) : outcome dict :=
  match dict_lookup "interest_over_time" results with
  | Some interest =>
      timeline <~ py_get interest "timeline_data" (PList []) ;;
      points <~ py_iter timeline ;;
      timeline_loop keywords points []
  | None => Ok []
  end.

Definition geo_mapping : dict :=
  [("PL", PStr "PL"); ("US", PStr "US"); ("DE", PStr "DE");
   ("GB", PStr "GB"); ("FR", PStr "FR")].

(** [geo_mapping.get(region_code, region_code)] *)
Definition geo_mapping_get (region_code : pyval) : outcome pyval :=
  match region_code with
  | PStr s => Ok (dict_get s region_code geo_mapping)
  | PList _ | PDict _ =>
      Raise (Exn TypeError ("unhashable type: " +:+ quote (type_name region_code)))
  | _ => Ok region_code
  end.

Section Collector.

Context {services : Services}.

(** The text of the clock reading taken in world [w]. *)
Definition now (w : world) : pyval := PStr (isoformat (readings w)).

(** [datetime.now().isoformat()] *)
Definition datetime_now_isoformat : M pyval := fun w => (Ok (now w), tick w).

(** [GoogleSearch(params).get_dict()] *)
Definition get_dict (params : pyval) : M dict :=
  fun w =>
    match client (length (requests w)) params with
    | Response results => (Ok results, sent params w)
    | Failure e => (Raise e, sent params w)
    end.

(** [with open(filename, 'w') as f: json.dump(data, f, ...)]: the document
    replaces whatever the path held.  Opening the path is what can fail;
    the documents of the value universe can all be serialised. *)
Definition json_dump (data filename : pyval) : M unit :=
  match filename with
  | PStr path =>
      match refused path with
      | Some e => lift (Raise e)
      | None => fun w => (Ok tt, written path data w)
      end
  | PInt _ | PBool _ => lift Unmodelled
  | _ => lift (Raise (Exn TypeError
           ("expected str, bytes or os.PathLike object, not "
            +:+ type_name filename)))
  end.

Definition trending_params (self : TrendsCollector) (region_code : pyval) : pyval :=
  PDict [("api_key", api_key self);
         ("engine", PStr "google_trends_trending_now");
         ("geo", region_code)].

(** The [try] block of [collect_trending_searches] (lines 49-93). *)
Definition collect_trending_searches_try
    (self : TrendsCollector) (region_code region_name : pyval) : M pyval :=
  results <- get_dict (trending_params self region_code) ;;
  collection_time <- datetime_now_isoformat ;;
  let trending_data := trending_record region_code region_name collection_time in
  if dict_mem "trending_searches" results
  then lift (trending_found self results trending_data)
  else ret (trending_missing results trending_data).

(** The [except Exception as e] block (lines 95-103). *)
Definition collection_failed (region_code region_name : pyval) (e : exn) : M pyval :=
  collection_time <- datetime_now_isoformat ;;
  ret (failure_record region_code region_name e collection_time).

Definition collect_trending_searches
    (self : TrendsCollector) (region_code region_name : pyval) : M pyval :=
  try_except (collect_trending_searches_try self region_code region_name)
             (collection_failed region_code region_name).

Definition collect_interest_over_time_try
    (self : TrendsCollector) (keywords region_code region_name : pyval) : M pyval :=
  geo_code <- lift (geo_mapping_get region_code) ;;
  q <- lift (py_join "," keywords) ;;
  date <- lift (py_get (config self) "timeframe" (PStr "today 3-m")) ;;
  results <- get_dict (PDict [("api_key", api_key self);
                              ("engine", PStr "google_trends");
                              ("q", q);
                              ("geo", geo_code);
                              ("date", date)]) ;;
  collection_time <- datetime_now_isoformat ;;
  timeframe <- lift (py_get (config self) "timeframe" (PStr "today 3-m")) ;;
  let interest_data : dict :=
    [("region_name", region_name);
     ("region_code", region_code);
     ("collection_time", collection_time);
     ("keywords", keywords);
     ("timeframe", timeframe);
     ("interest_over_time", PDict []);
     ("related_topics", PDict []);
     ("related_queries", PDict []);
     ("source", source_name)] in
  lift (interest <~ interest_section results keywords ;;
        topics <~ related_section "related_topics" results keywords ;;
        queries <~ related_section "related_queries" results keywords ;;
        Ok (PDict (dict_set "related_queries" (PDict queries)
                    (dict_set "related_topics" (PDict topics)
                      (dict_set "interest_over_time" (PDict interest)
                        interest_data))))).

Definition collect_interest_over_time
    (self : TrendsCollector) (keywords region_code region_name : pyval) : M pyval :=
  try_except (collect_interest_over_time_try self keywords region_code region_name)
             (collection_failed region_code region_name).

(** [for i, region in enumerate(regions): ...] (lines 199-214) *)
Fixpoint regions_loop (self : TrendsCollector) (trending_enabled regions : pyval)
    (i : nat) (items : list pyval) (trending_searches_data : list pyval)
  : M (list pyval) :=
  match items with
  | [] => ret trending_searches_data
  | region :: rest =>
      region_name <- lift (py_getitem region "name") ;;
      region_code <- lift (py_getitem region "code") ;;
      trending_searches_data <-
        (if truthy trending_enabled then
           trending_data <- collect_trending_searches self region_code region_name ;;
           time_sleep 2 ;;;
           ret (trending_searches_data ++ [trending_data])
         else ret trending_searches_data) ;;
      n <- lift (py_len regions) ;;
      (if Z.of_nat i <? n - 1 then time_sleep 3 else ret tt) ;;;
      regions_loop self trending_enabled regions (S i) rest trending_searches_data
  end.

Definition collect_all_trends (self : TrendsCollector) : M pyval :=
  keywords <- lift (py_getitem (config self) "keywords") ;;
  regions <- lift (py_getitem (config self) "regions") ;;
  trending_enabled <- lift (configured_enabled self) ;;
  collection_time <- datetime_now_isoformat ;;
  total_regions <- lift (py_len regions) ;;
  timeframe <- lift (py_get (config self) "timeframe" (PStr "today 3-m")) ;;
  let all_data :=
    collection_run
      (run_metadata collection_time keywords total_regions timeframe trending_enabled)
      [] in
  items <- lift (py_iter regions) ;;
  trending_searches_data <- regions_loop self trending_enabled regions 0 items [] ;;
  ret (PDict (dict_set "trending_searches_data" (PList trending_searches_data)
                all_data)).

(** [save_to_json(data, filename)]; [PNone] is the default argument.  The
    [except] block only logs and re-raises. *)
Definition save_to_json (self : TrendsCollector) (data filename : pyval) : M unit :=
  filename <-
    (match filename with
     | PNone => lift (py_get (config self) "output_file" (PStr "trends_data.json"))
     | _ => ret filename
     end) ;;
  json_dump data filename ;;;
  simple_data <- lift (create_simple_format data) ;;
  simple_filename <- lift (py_replace filename ".json" "_simple.json") ;;
  json_dump simple_data simple_filename.

Definition run (self : TrendsCollector) : M pyval :=
  data <- collect_all_trends self ;;
  save_to_json self data PNone ;;;
  total_requests <-
    lift (regions <~ py_get (config self) "regions" (PList []) ;; py_len regions) ;;
  ret data.

End Collector.

(** ** Shapes of documents *)

(** A field of a mapping; nothing when the value is not a mapping. *)
Definition field (k : string) (v : pyval) : option pyval :=
  match v with
  | PDict d => dict_lookup k d
  | _ => None
  end.

Definition is_dict (v : pyval) : bool :=
  match v with PDict _ => true | _ => false end.

(** A configured region: a mapping with a [name] and a [code]. *)
Definition is_region (r : pyval) : bool :=
  match r with
  | PDict d => dict_mem "name" d && dict_mem "code" d
  | _ => false
  end.

(** A trend record: a mapping whose [categories], when present, is a
    sequence of mappings. *)
Definition is_trend_record (t : pyval) : bool :=
  match t with
  | PDict d =>
      match dict_lookup "categories" d with
      | None => true
      | Some (PList cs) => forallb is_dict cs
      | Some _ => false
      end
  | _ => false
  end.

(** The trend records of a region's result; a result that recorded a
    failure has none. *)
Definition trending_searches_of (r : pyval) : list pyval :=
  match field "trending_searches" r with
  | Some (PList ts) => ts
  | _ => []
  end.

Definition is_region_result (r : pyval) : bool :=
  match r with
  | PDict d =>
      match dict_lookup "trending_searches" d with
      | None => true
      | Some (PList ts) => forallb is_trend_record ts
      | Some _ => false
      end
  | _ => false
  end.

(** The fields of a trend record: name, key read from the item, default. *)
Definition trend_fields : list (string * (string * pyval)) :=
  [("query", ("query", PStr ""));
   ("search_volume", ("search_volume", PInt 0));
   ("increase_percentage", ("increase_percentage", PInt 0));
   ("active", ("active", PBool true));
   ("categories", ("categories", PList []));
   ("related_queries", ("trend_breakdown", PList []));
   ("start_timestamp", ("start_timestamp", PInt 0))].

(** ** Interest over time, as the specification words it *)

(** One date's row: the value list zipped against the keyword list. *)
Definition zip_row (keywords : list string) (values : list dict) : dict :=
  fold_left (fun row kv => dict_set kv.1 (dict_get "value" (PInt 0) kv.2) row)
            (zip keywords values) [].

(** The per-date mapping; a point without a date or without values is
    skipped. *)
Definition zip_timeline (keywords : list string) (points : list (string * list dict))
  : dict :=
  fold_left (fun interest p =>
               if negb (String.eqb p.1 "") && match p.2 with [] => false | _ => true end
               then dict_set p.1 (PDict (zip_row keywords p.2)) interest
               else interest)
            points [].

(** The sub-mappings of the keywords that have one. *)
Definition copy_related (keywords : list string) (related : dict) : dict :=
  fold_left (fun out k =>
               match dict_lookup k related with
               | Some v => dict_set k v out
               | None => out
               end)
            keywords [].

(** A data point of the timeline with its date and its values. *)
Definition is_point (data_point : pyval) (p : string * list dict) : Prop :=
  exists d, data_point = PDict d /\
            dict_get "date" (PStr "") d = PStr p.1 /\
            dict_get "values" (PList []) d = PList (PDict <$> p.2).

(** The record built from a mapping item, field by field. *)
Definition trend_record (item : dict) : dict :=
  (fun f => (f.1, dict_get f.2.1 f.2.2 item)) <$> trend_fields.


(** ** The reduced projection, entry by entry *)

Definition query_fields : list string :=
  ["query"; "search_volume"; "increase_percentage"; "category"].

Definition region_fields : list string :=
  ["region_name"; "region_code"; "trending_queries"].

(** [x.get(k)] on a mapping *)
Definition get_or_none (k : string) (x : pyval) : pyval :=
  default PNone (field k x).

(** [q] is the entry kept for the trend record [t]. *)
Definition projects_query (t q : pyval) : Prop :=
  simple_query t = Ok q /\
  exists qd,
    q = PDict qd /\
    dict_keys qd = query_fields /\
    dict_lookup "query" qd = Some (get_or_none "query" t) /\
    dict_lookup "search_volume" qd = Some (get_or_none "search_volume" t) /\
    dict_lookup "increase_percentage" qd = Some (get_or_none "increase_percentage" t).

(** [e] is the entry kept for the region's result [r]. *)
Definition projects_region (r e : pyval) : Prop :=
  exists ed qs,
    e = PDict ed /\
    dict_keys ed = region_fields /\
    dict_lookup "region_name" ed = Some (get_or_none "region_name" r) /\
    dict_lookup "region_code" ed = Some (get_or_none "region_code" r) /\
    dict_lookup "trending_queries" ed = Some (PList qs) /\
    length qs = length (trending_searches_of r) /\
    Forall2 projects_query (trending_searches_of r) qs.

(** The character [c] does not occur in [s]. *)
Fixpoint lacks (c : Ascii.ascii) (s : string) : bool :=
  match s with
  | EmptyString => true
  | String a s' => negb (Ascii.eqb a c) && lacks c s'
  end.

(** ** Sample documents *)

Definition sample_isoformat (n : nat) : string := "2024-05-01T12:00:0" +:+ pretty n.

Definition sample_world : world := World 0 [] 0 ∅.

Definition always (r : reply) : nat -> pyval -> reply := fun _ _ => r.

Definition poland : pyval := PDict [("name", PStr "Poland"); ("code", PStr "PL")].
Definition germany : pyval := PDict [("name", PStr "Germany"); ("code", PStr "DE")].

Definition sample_config (count : Z) : dict :=
  [("serpapi_key", PStr "secret");
   ("keywords", PList [PStr "python"]);
   ("regions", PList [poland; germany]);
   ("trending_searches", PDict [("enabled", PBool true); ("count", PInt count)])].

Definition sample_collector (count : Z) : TrendsCollector :=
  Collector (PDict (sample_config count)) (PStr "secret").

Definition sample_items : list dict :=
  [[("query", PStr "a"); ("search_volume", PInt 10)];
   [("query", PStr "b")];
   [("query", PStr "c")]].

Definition sample_results : dict :=
  [("trending_searches", PList (PDict <$> sample_items))].

Definition sample_error_results : dict := [("error", PStr "Invalid API key.")].

(** A response whose items are not mappings. *)
Definition sample_malformed_results : dict :=
  [("trending_searches", PList [PStr "a"; PStr "b"])].

(** The second request fails, every other one is answered. *)
Definition fail_second (n : nat) (_ : pyval) : reply :=
  match n with
  | 1%nat => Failure (Exn ClientError "HTTP 429: too many requests")
  | _ => Response sample_results
  end.

Definition never_refused (path : string) : option exn := None.

(** Services whose client answers every request with [results]. *)
Definition answering (results : dict) : Services :=
  {| isoformat := sample_isoformat;
     client := always (Response results);
     refused := never_refused |}.

Definition failing_second : Services :=
  {| isoformat := sample_isoformat;
     client := fail_second;
     refused := never_refused |}.

(** A configuration with the key of the service and nothing optional. *)
Definition minimal_config : dict :=
  [("serpapi_key", PStr "secret");
   ("keywords", PList [PStr "python"]);
   ("regions", PList [poland; germany])].

Definition config_without_keywords : dict :=
  [("serpapi_key", PStr "secret"); ("regions", PList [poland; germany])].

Definition config_without_regions : dict :=
  [("serpapi_key", PStr "secret"); ("keywords", PList [PStr "python"])].

Definition sample_trend : dict :=
  [("query", PStr "euro 2024");
   ("search_volume", PInt 200000);
   ("increase_percentage", PInt 1000);
   ("active", PBool true);
   ("categories", PList [PDict [("id", PInt 17); ("name", PStr "Sports")]]);
   ("related_queries", PList []);
   ("start_timestamp", PInt 1714564800)].

Definition sample_region_results : list pyval :=
  [PDict (dict_set "trending_searches"
            (PList [PDict sample_trend; PDict (trend_record [("query", PStr "b")])])
            (trending_record (PStr "PL") (PStr "Poland") (PStr "2024-05-01T12:00:01")));
   failure_record (PStr "DE") (PStr "Germany")
     (Exn ClientError "HTTP 429: too many requests") (PStr "2024-05-01T12:00:04")].

Definition sample_run : dict :=
  collection_run
    (run_metadata (PStr "2024-05-01T12:00:00") (PList [PStr "python"]) 2
       (PStr "today 3-m") (PBool true))
    sample_region_results.

Definition sample_points : list (string * list dict) :=
  [("May 1", [[("value", PInt 40)]; [("value", PInt 75)]]);
   ("May 2", []);
   ("May 3", [[("value", PInt 55)]])].

Definition sample_timeline : list pyval :=
  [PDict [("date", PStr "May 1");
          ("values", PList [PDict [("value", PInt 40)]; PDict [("value", PInt 75)]])];
   PDict [("date", PStr "May 2"); ("values", PList [])];
   PDict [("date", PStr "May 3"); ("values", PList [PDict [("value", PInt 55)]])]].

(** A response with a timeline and related topics, without related
    queries. *)
Definition sample_partial_results : dict :=
  [("interest_over_time", PDict [("timeline_data", PList sample_timeline)]);
   ("related_topics", PDict [("rust", PList [PStr "Cargo"])])].

Definition sample_interest_results : dict :=
  [("interest_over_time", PDict [("timeline_data", PList sample_timeline)]);
   ("related_topics", PDict [("rust", PList [PStr "Cargo"])]);
   ("related_queries", PDict [("python", PList [PStr "python pip"])])].

(** An outcome inside the value universe. *)
Definition modelled {A} (o : outcome A) : Prop := o <> Unmodelled.

(** ** Construction and entry point *)

(** [setup_logging()] (lines 36-44): building the [FileHandler] opens the
    log file, which fails when the file system refuses it; what is logged
    afterwards is the side channel. *)
Definition setup_logging {services : Services} : M unit :=
  match refused "trends_collector.log" with
  | Some e => lift (Raise e)
  | None => ret tt
  end.

(** [TrendsCollector(config_file)] (lines 18-23): [loaded] is what
    [load_config] gives, the parsed document or the exception it logs and
    re-raises. *)
Definition TrendsCollector_new {services : Services} (loaded : outcome pyval)
  : M TrendsCollector :=
  cfg <- lift loaded ;;
  self <- lift (TrendsCollector_init cfg) ;;
  setup_logging ;;;
  ret self.

(** How [main] ends: it returns, or [exit(code)] ends the process. *)
Inductive exit_status : Type :=
| Returned
| Exited (code : Z).

Definition success_message : string :=
  "Program zakończył się pomyślnie. Sprawdź plik z danymi i logi.".

(** [main()] (lines 281-288): what it ends with and the line it prints. *)
Definition main {services : Services} (loaded : outcome pyval)
  : M (exit_status * string) :=
  try_except
    (collector <- TrendsCollector_new loaded ;;
     run collector ;;;
     ret (Returned, success_message))
    (fun e => ret (Exited 1, "Błąd: " +:+ exc_str e)).

(** ** Shapes of responses *)

(** An item of a response that the reduced projection can take: when it is
    a mapping, its [categories], if any, is a sequence of mappings. *)
Definition item_ok (item : pyval) : bool :=
  match item with
  | PDict _ => is_trend_record item
  | _ => true
  end.

Definition results_ok (results : dict) : bool :=
  match dict_lookup "trending_searches" results with
  | Some (PList items) => forallb item_ok items
  | _ => true
  end.

(** [region['code']] of a configured region *)
Definition region_code_of (region : pyval) : pyval :=
  default PNone (field "code" region).

(** Seconds the pass over [n] regions spends in [time.sleep]. *)
Definition total_pause (enabled : bool) (n : Z) : Z :=
  (if enabled then 2 * n else 0) + 3 * Z.max (n - 1) 0.

(** The request of [collect_interest_over_time] (lines 120-126). *)
Definition interest_params (self : TrendsCollector) (q geo date : pyval) : pyval :=
  PDict [("api_key", api_key self);
         ("engine", PStr "google_trends");
         ("q", q);
         ("geo", geo);
         ("date", date)].

(** ** More sample documents *)

Definition sample_mixed_items : list pyval :=
  (PDict <$> sample_items) ++ [PStr "d"; PInt 5].

Definition sample_mixed_results : dict :=
  [("trending_searches", PList sample_mixed_items)].

(** A configuration whose count is whatever [count] is. *)
Definition config_with_count (count : pyval) : dict :=
  [("serpapi_key", PStr "secret");
   ("keywords", PList [PStr "python"]);
   ("regions", PList [poland; germany]);
   ("trending_searches", PDict [("enabled", PBool true); ("count", count)])].

Definition collector_with_count (count : pyval) : TrendsCollector :=
  Collector (PDict (config_with_count count)) (PStr "secret").

(** The path [save_to_json] writes the run to: the argument, or the
    configured [output_file], or the default name (lines 219-220). *)
Definition output_path (cfg : dict) (filename : pyval) : pyval :=
  match filename with
  | PNone => dict_get "output_file" (PStr "trends_data.json") cfg
  | _ => filename
  end.

Definition sample_bad_category_run : dict :=
  collection_run
    (run_metadata (PStr "2024-05-01T12:00:00") (PList [PStr "python"]) 1
       (PStr "today 3-m") (PBool true))
    [PDict (dict_set "trending_searches"
              (PList [PDict sample_trend;
                      PDict [("query", PStr "b"); ("categories", PList [PStr "News"])]])
              (trending_record (PStr "PL") (PStr "Poland") (PStr "2024-05-01T12:00:01")))].

(** A configuration with the given regions and [trending_searches]
    setting. *)
Definition config_of (regions : list pyval) (section : pyval) : dict :=
  [("serpapi_key", PStr "secret");
   ("keywords", PList [PStr "python"]);
   ("regions", PList regions);
   ("trending_searches", section)].

Definition collector_of (regions : list pyval) (section : pyval) : TrendsCollector :=
  Collector (PDict (config_of regions section)) (PStr "secret").

(** A region entry that lacks its code. *)
Definition nowhere : dict := [("name", PStr "Nowhere")].

(** Services whose file system refuses [path]. *)
Definition refusing (path : string) : Services :=
  {| isoformat := sample_isoformat;
     client := always (Response sample_results);
     refused := fun p =>
       if String.eqb p path then Some (Exn OSError "Permission denied") else None |}.

Definition sample_repeated_timeline : list pyval :=
  [PDict [("date", PStr "May 1"); ("values", PList [PDict [("value", PInt 40)]])];
   PDict [("date", PStr "May 1"); ("values", PList [PDict [("value", PInt 90)]])];
   PDict [("date", PStr "May 2"); ("values", PList [PDict [("value", PInt 10)]])]].

Definition sample_repeated_results : dict :=
  [("interest_over_time", PDict [("timeline_data", PList sample_repeated_timeline)])].

(** * Properties *)

(** ** Mappings and outcomes *)

Lemma dict_lookup_set_eq k v d : dict_lookup k (dict_set k v d) = Some v.
Proof.
  induction d as [|[k' v'] d IH]; simpl.
  - by rewrite String.eqb_refl.
  - destruct (String.eqb k k') eqn:E; simpl.
    + by rewrite String.eqb_refl.
    + by rewrite E.
Qed.

Lemma dict_lookup_set_ne k k' v d :
  k <> k' -> dict_lookup k' (dict_set k v d) = dict_lookup k' d.
Proof.
  intros Hne. apply String.eqb_neq in Hne.
  induction d as [|[k0 v0] d IH]; simpl.
  - rewrite String.eqb_sym. by rewrite Hne.
  - destruct (String.eqb k k0) eqn:E; simpl.
    + apply String.eqb_eq in E. subst k0.
      rewrite String.eqb_sym. by rewrite Hne.
    + by rewrite IH.
Qed.

Lemma dict_mem_true k d : dict_mem k d = true <-> is_Some (dict_lookup k d).
Proof.
  unfold dict_mem. destruct (dict_lookup k d); split; intros H; done.
Qed.

Lemma dict_mem_false k d : dict_mem k d = false <-> dict_lookup k d = None.
Proof. unfold dict_mem. by destruct (dict_lookup k d). Qed.

Lemma obind_modelled {A B} (o : outcome A) (k : A -> outcome B) :
  modelled o -> (forall a, o = Ok a -> modelled (k a)) -> modelled (obind o k).
Proof. destruct o; simpl; intros Ho Hk; [by apply Hk | done | done]. Qed.

Lemma py_get_modelled x k v : modelled (py_get x k v).
Proof. by destruct x. Qed.

Lemma py_getitem_modelled x k : modelled (py_getitem x k).
Proof. destruct x; simpl; try done. by destruct (dict_lookup k d). Qed.

Lemma slice_stop_modelled n : modelled (slice_stop n).
Proof. by destruct n. Qed.

Lemma py_slice_to_modelled x n : modelled (py_slice_to x n).
Proof.
  destruct x; simpl; try done;
    (apply obind_modelled; [apply slice_stop_modelled | done]).
Qed.

Lemma py_iter_modelled x : modelled (py_iter x).
Proof. by destruct x. Qed.

Lemma py_len_modelled x : modelled (py_len x).
Proof. by destruct x. Qed.

Lemma trend_data_modelled trend : modelled (trend_data trend).
Proof. by destruct trend. Qed.

Lemma append_each_modelled body items out :
  (forall x, modelled (body x)) -> modelled (append_each body items out).
Proof.
  intros Hb. revert out. induction items as [|x items IH]; intros out; simpl; [done|].
  apply obind_modelled; auto.
Qed.

(** A loop whose body succeeds on every item appends one result per item,
    in order. *)
Lemma append_each_ok (P : pyval -> pyval -> Prop) body items out :
  Forall (fun x => exists y, body x = Ok y /\ P x y) items ->
  exists ys, append_each body items out = Ok (out ++ ys) /\ Forall2 P items ys.
Proof.
  intros H. revert out. induction H as [|x items (y & Hy & HP) _ IH]; intros out.
  - exists []. by rewrite app_nil_r.
  - destruct (IH (out ++ [y])) as (ys & Hys & HF).
    exists (y :: ys). simpl. rewrite Hy. simpl. rewrite Hys, <- app_assoc.
    split; [done|]. by constructor.
Qed.

Lemma trends_loop_modelled items acc : modelled (trends_loop items acc).
Proof. apply append_each_modelled, trend_data_modelled. Qed.

Lemma configured_count_modelled self : modelled (configured_count self).
Proof.
  unfold configured_count.
  apply obind_modelled; auto using py_get_modelled.
Qed.

Lemma trending_found_modelled self results trending_data :
  modelled (trending_found self results trending_data).
Proof.
  unfold trending_found.
  repeat (apply obind_modelled;
          [first [ apply configured_count_modelled | apply py_getitem_modelled
                 | apply py_slice_to_modelled | apply py_iter_modelled
                 | apply trends_loop_modelled ] | intros ? _ ]).
  done.
Qed.

(** Whatever the normalisation of a found list returns is the record under
    construction with its list filled in. *)
Lemma trending_found_shape self results trending_data v :
  trending_found self results trending_data = Ok v ->
  exists recs, v = PDict (dict_set "trending_searches" (PList recs) trending_data).
Proof.
  unfold trending_found.
  destruct (configured_count self); cbn [obind]; try done.
  destruct (py_getitem _ _); cbn [obind]; try done.
  destruct (py_slice_to _ _); cbn [obind]; try done.
  destruct (py_iter _); cbn [obind]; try done.
  destruct (trends_loop _ _); cbn [obind]; try done.
  intros [= <-]. by eexists.
Qed.

Lemma bind_ok {A B} (m : M A) (k : A -> M B) w a w' :
  m w = (Ok a, w') -> bind m k w = k a w'.
Proof. unfold bind. by intros ->. Qed.

Lemma bind_raise {A B} (m : M A) (k : A -> M B) w e w' :
  m w = (Raise e, w') -> bind m k w = (Raise e, w').
Proof. unfold bind. by intros ->. Qed.

Lemma trend_data_dict item : trend_data (PDict item) = Ok (PDict (trend_record item)).
Proof. reflexivity. Qed.

Lemma trends_loop_dicts ds acc :
  trends_loop (PDict <$> ds) acc = Ok (acc ++ (PDict <$> (trend_record <$> ds))).
Proof.
  unfold trends_loop. revert acc. induction ds as [|item ds IH]; intros acc; simpl.
  - by rewrite app_nil_r.
  - rewrite IH. by rewrite <- app_assoc.
Qed.

Lemma trend_record_fields item f src dflt :
  (f, (src, dflt)) ∈ trend_fields ->
  dict_lookup f (trend_record item) = Some (dict_get src dflt item).
Proof.
  unfold trend_fields. rewrite !elem_of_cons, elem_of_nil.
  intros H. repeat (destruct H as [H|H]; [by simplify_eq|]). done.
Qed.

(** A collector that was built holds a mapping and a key that is set. *)
Lemma TrendsCollector_init_ok loaded self :
  TrendsCollector_init loaded = Ok self ->
  exists cfg key,
    loaded = PDict cfg /\ dict_lookup "serpapi_key" cfg = Some key /\
    truthy key = true /\ self = Collector (PDict cfg) key.
Proof.
  unfold TrendsCollector_init. destruct loaded as [| | | | | |cfg]; try done.
  simpl. unfold dict_get.
  destruct (dict_lookup "serpapi_key" cfg) as [key|] eqn:Hlookup; [|done].
  destruct (truthy key) eqn:Hkey; [|done].
  intros [= <-]. exists cfg, key. by split_and!.
Qed.

Section CollectorProperties.

Context {services : Services}.

(** The [try] block, by what the client answers. *)
Lemma collect_trending_searches_try_eq self code name w :
  collect_trending_searches_try self code name w =
  let w1 := sent (trending_params self code) w in
  match client (length (requests w)) (trending_params self code) with
  | Failure e => (Raise e, w1)
  | Response results =>
      let trending_data := trending_record code name (now w) in
      if dict_mem "trending_searches" results
      then (trending_found self results trending_data, tick w1)
      else (Ok (trending_missing results trending_data), tick w1)
  end.
Proof.
  unfold collect_trending_searches_try, bind, get_dict.
  destruct (client _ _) as [results|e]; [|done].
  simpl. by destruct (dict_mem _ results).
Qed.

(** The whole method: a raised exception becomes a failure record. *)
Lemma collect_trending_searches_eq self code name w :
  collect_trending_searches self code name w =
  match collect_trending_searches_try self code name w with
  | (Raise e, w1) => (Ok (failure_record code name e (now w1)), tick w1)
  | r => r
  end.
Proof.
  unfold collect_trending_searches, try_except.
  by destruct (collect_trending_searches_try self code name w) as [[v|e|] w1].
Qed.

Lemma collect_trending_searches_try_modelled self code name w :
  modelled (collect_trending_searches_try self code name w).1.
Proof.
  rewrite collect_trending_searches_try_eq. simpl.
  destruct (client _ _) as [results|e]; [|done].
  destruct (dict_mem _ results); simpl; [apply trending_found_modelled | done].
Qed.

Lemma collect_trending_searches_try_requests self code name w :
  requests (collect_trending_searches_try self code name w).2 =
  requests w ++ [trending_params self code].
Proof.
  rewrite collect_trending_searches_try_eq. simpl.
  destruct (client _ _) as [results|e]; [|done].
  by destruct (dict_mem _ results).
Qed.

(** The method always returns a record of its region, after one request. *)
Lemma collect_trending_searches_total self code name w :
  exists v w',
    collect_trending_searches self code name w = (Ok v, w') /\
    field "region_code" v = Some code /\
    field "region_name" v = Some name /\
    requests w' = requests w ++ [trending_params self code].
Proof.
  rewrite collect_trending_searches_eq.
  pose proof (collect_trending_searches_try_modelled self code name w) as Hm.
  pose proof (collect_trending_searches_try_requests self code name w) as Hr.
  rewrite collect_trending_searches_try_eq in *. simpl in *.
  destruct (client _ _) as [results|e]; [|by eauto 10].
  destruct (dict_mem _ results) eqn:Hmem; simpl in *.
  - destruct (trending_found _ _ _) as [v|e|] eqn:Hf; [| by eauto 10 | done].
    apply trending_found_shape in Hf as [recs ->]. by eauto 10.
  - eexists _, _. split; [done|]. split_and!; [| |done].
    + unfold trending_missing. by destruct (dict_lookup "error" results).
    + unfold trending_missing. by destruct (dict_lookup "error" results).
Qed.


(** C4: a response without a [trending_searches] key gives a record with
    an empty list, the fixed non-empty message as [error], and the
    response's own [error], when it has one, as [api_error]. *)
Theorem missing_list_reported self code name w results :
  client (length (requests w)) (trending_params self code) = Response results ->
  dict_mem "trending_searches" results = false ->
  exists v w',
    collect_trending_searches self code name w = (Ok v, w') /\
    field "trending_searches" v = Some (PList []) /\
    field "error" v = Some (PStr "Brak danych w odpowiedzi SerpAPI") /\
    "Brak danych w odpowiedzi SerpAPI" <> "" /\
    field "api_error" v = dict_lookup "error" results.
Proof.
  intros Hc Hmem.
  rewrite collect_trending_searches_eq, collect_trending_searches_try_eq.
  simpl. rewrite Hc, Hmem.
  eexists _, _. split; [done|]. unfold trending_missing.
  by destruct (dict_lookup "error" results).
Qed.

(** C2, amended: when the [trending_searches] of the response is a list of
    M mappings and the configured count is an integer K >= 0 (20 when the
    configuration names none), the record holds min(M,K) trend records,
    the i-th built from the i-th item, each with exactly the seven fields,
    every field taken from the item or, when the item lacks it, set to its
    default. *)
Theorem trending_list_normalised self code name w results ds K :
  client (length (requests w)) (trending_params self code) = Response results ->
  dict_lookup "trending_searches" results = Some (PList (PDict <$> ds)) ->
  configured_count self = Ok (PInt K) ->
  0 <= K ->
  exists v w' recs,
    collect_trending_searches self code name w = (Ok v, w') /\
    field "trending_searches" v = Some (PList (PDict <$> recs)) /\
    Z.of_nat (length recs) = Z.min (Z.of_nat (length ds)) K /\
    forall i rec, recs !! i = Some rec ->
      exists item,
        ds !! i = Some item /\
        dict_keys rec = trend_fields.*1 /\
        forall f src dflt, (f, (src, dflt)) ∈ trend_fields ->
          dict_lookup f rec = Some (dict_get src dflt item).
Proof.
  intros Hc Hl Hk HK.
  rewrite collect_trending_searches_eq, collect_trending_searches_try_eq.
  simpl. rewrite Hc. unfold dict_mem. rewrite Hl.
  unfold trending_found. rewrite Hk. simpl. rewrite Hl. simpl.
  destruct (Z.leb_spec 0 K) as [_|]; [|lia].
  rewrite <- fmap_take, trends_loop_dicts. simpl.
  eexists _, _, (trend_record <$> take (Z.to_nat K) ds).
  split; [done|]. split; [done|]. split.
  { rewrite length_fmap, length_take. lia. }
  intros i rec Hi. rewrite list_lookup_fmap in Hi.
  destruct (take (Z.to_nat K) ds !! i) as [item|] eqn:Ht; [|done].
  simpl in Hi. injection Hi as <-.
  apply lookup_take_Some in Ht as [Ht _].
  exists item. split; [done|]. split; [done|].
  intros f src dflt. apply trend_record_fields.
Qed.

(** One pass over the regions with collection enabled: every region adds
    the record that [collect_trending_searches] returns for it, and the
    j-th region's request is the j-th one sent. *)
Lemma regions_loop_enabled self en regions n :
  truthy en = true ->
  py_len regions = Ok n ->
  forall items i acc w,
    forallb is_region items = true ->
    exists data w',
      regions_loop self en regions i items acc w = (Ok (acc ++ data), w') /\
      length data = length items /\
      forall j r, items !! j = Some r ->
        exists code name wj wj' v,
          field "code" r = Some code /\
          field "name" r = Some name /\
          length (requests wj) = (length (requests w) + j)%nat /\
          collect_trending_searches self code name wj = (Ok v, wj') /\
          data !! j = Some v.
Proof.
  intros Hen Hn. induction items as [|r items IH]; intros i acc w Hrs.
  - exists [], w. rewrite app_nil_r. by split_and!.
  - simpl in Hrs. apply andb_prop in Hrs as [Hr Hrs].
    destruct r as [| | | | | |d]; try done. simpl in Hr.
    apply andb_prop in Hr as [Hname Hcode].
    apply dict_mem_true in Hname as [name Hname].
    apply dict_mem_true in Hcode as [code Hcode].
    destruct (collect_trending_searches_total self code name w)
      as (v & w1 & Hv & _ & _ & Hreq).
    set (w2 := if Z.of_nat i <? n - 1 then paused 3 (paused 2 w1) else paused 2 w1).
    destruct (IH (S i) (acc ++ [v]) w2 Hrs) as (data & w' & Hloop & Hlen & Hdata).
    exists (v :: data), w'. split_and!.
    + simpl. unfold bind at 1, lift. simpl. rewrite Hname.
      unfold bind at 1. simpl. rewrite Hcode.
      unfold bind at 1. rewrite Hen.
      unfold bind at 1. rewrite Hv.
      unfold bind at 1, time_sleep, ret.
      unfold bind at 1. rewrite Hn.
      unfold bind at 1.
      replace (acc ++ v :: data) with ((acc ++ [v]) ++ data)
        by (by rewrite <- app_assoc).
      rewrite <- Hloop. unfold w2.
      by destruct (Z.of_nat i <? n - 1).
    + simpl. by rewrite Hlen.
    + intros [|j] r Hj; simpl in Hj.
      * injection Hj as <-. exists code, name, w, w1, v.
        split_and!; try done; lia.
      * destruct (Hdata j r Hj) as (c & nm & wj & wj' & vj & ? & ? & Hq & ? & ?).
        exists c, nm, wj, wj', vj. split_and!; try done.
        rewrite Hq. assert (requests w2 = requests w1) as ->.
        { unfold w2. by destruct (Z.of_nat i <? n - 1). }
        rewrite Hreq, length_app. simpl. lia.
Qed.

(** With collection disabled the pass only pauses. *)
Lemma regions_loop_disabled self en regions n :
  truthy en = false ->
  py_len regions = Ok n ->
  forall items i acc w,
    forallb is_region items = true ->
    exists w',
      regions_loop self en regions i items acc w = (Ok acc, w') /\
      requests w' = requests w /\ files w' = files w.
Proof.
  intros Hen Hn. induction items as [|r items IH]; intros i acc w Hrs.
  - by exists w.
  - simpl in Hrs. apply andb_prop in Hrs as [Hr Hrs].
    destruct r as [| | | | | |d]; try done. simpl in Hr.
    apply andb_prop in Hr as [Hname Hcode].
    apply dict_mem_true in Hname as [name Hname].
    apply dict_mem_true in Hcode as [code Hcode].
    set (w2 := if Z.of_nat i <? n - 1 then paused 3 w else w).
    destruct (IH (S i) acc w2 Hrs) as (w' & Hloop & Hreq & Hfiles).
    exists w'. split_and!.
    + simpl. unfold bind at 1, lift. simpl. rewrite Hname.
      unfold bind at 1. simpl. rewrite Hcode.
      unfold bind at 1. rewrite Hen. unfold ret.
      unfold bind at 1. rewrite Hn.
      unfold bind at 1. rewrite <- Hloop. unfold w2, time_sleep.
      by destruct (Z.of_nat i <? n - 1).
    + rewrite Hreq. unfold w2. by destruct (Z.of_nat i <? n - 1).
    + rewrite Hfiles. unfold w2. by destruct (Z.of_nat i <? n - 1).
Qed.

(** The orchestrator on a configuration that has its keywords and a list
    of regions: the run is what the pass over the regions leaves. *)
Lemma collect_all_trends_eq self cfg keywords rs en w :
  config self = PDict cfg ->
  dict_lookup "keywords" cfg = Some keywords ->
  dict_lookup "regions" cfg = Some (PList rs) ->
  configured_enabled self = Ok en ->
  collect_all_trends self w =
  match regions_loop self en (PList rs) 0 rs [] (tick w) with
  | (Ok data, w') =>
      (Ok (PDict (collection_run
                    (run_metadata (now w) keywords (Z.of_nat (length rs))
                       (dict_get "timeframe" (PStr "today 3-m") cfg) en)
                    data)), w')
  | (Raise e, w') => (Raise e, w')
  | (Unmodelled, w') => (Unmodelled, w')
  end.
Proof.
  intros Hcfg Hkw Hrs Hen.
  unfold collect_all_trends, bind, lift. rewrite Hen, Hcfg.
  simpl. rewrite Hkw, Hrs. simpl.
  by destruct (regions_loop _ _ _ _ _ _ _) as [[data|e|] w'].
Qed.

(** C1: with collection enabled, the run holds one result per configured
    region, in the order of the configuration, each naming its region. *)
Theorem one_result_per_region self cfg keywords rs en w :
  config self = PDict cfg ->
  dict_lookup "keywords" cfg = Some keywords ->
  dict_lookup "regions" cfg = Some (PList rs) ->
  forallb is_region rs = true ->
  configured_enabled self = Ok en ->
  truthy en = true ->
  exists run data w',
    collect_all_trends self w = (Ok run, w') /\
    field "trending_searches_data" run = Some (PList data) /\
    length data = length rs /\
    forall i r, rs !! i = Some r ->
      exists v, data !! i = Some v /\
                is_Some (field "code" r) /\
                is_Some (field "name" r) /\
                field "region_code" v = field "code" r /\
                field "region_name" v = field "name" r.
Proof.
  intros Hcfg Hkw Hrs Hok Hen Htrue.
  rewrite (collect_all_trends_eq _ _ _ _ _ _ Hcfg Hkw Hrs Hen).
  destruct (regions_loop_enabled self en (PList rs) _ Htrue eq_refl rs 0%nat []
              (tick w) Hok) as (data & w' & -> & Hlen & Hdata).
  exists (PDict (collection_run
                   (run_metadata (now w) keywords (Z.of_nat (length rs))
                      (dict_get "timeframe" (PStr "today 3-m") cfg) en) data)),
    data, w'.
  split_and!; try done.
  intros i r Hi.
  destruct (Hdata i r Hi) as (code & name & wj & wj' & v & Hc & Hn & _ & Hv & Hd).
  destruct (collect_trending_searches_total self code name wj)
    as (v' & w1 & Hv' & Hrc & Hrn & _).
  rewrite Hv in Hv'. injection Hv' as <- <-.
  exists v. rewrite Hc, Hn. by split_and!.
Qed.

(** C3: [collect_trending_searches] never lets an exception out; whenever
    the call or the normalisation raises, it returns the record of exactly
    the five fields [region_name], [region_code], [error] (the message of
    the exception), [collection_time] (the clock reading taken then) and
    [source] (the name of the service); and a region whose call fails
    leaves that record in its place in a run that still holds one result
    for every region. *)
Theorem failure_contained self cfg keywords rs en w i r code name e :
  config self = PDict cfg ->
  dict_lookup "keywords" cfg = Some keywords ->
  dict_lookup "regions" cfg = Some (PList rs) ->
  forallb is_region rs = true ->
  configured_enabled self = Ok en ->
  truthy en = true ->
  rs !! i = Some r ->
  field "code" r = Some code ->
  field "name" r = Some name ->
  client (length (requests w) + i) (trending_params self code) = Failure e ->
  (forall code' name' w0,
      exists v w1, collect_trending_searches self code' name' w0 = (Ok v, w1)) /\
  (forall code' name' w0 e' w1,
      collect_trending_searches_try self code' name' w0 = (Raise e', w1) ->
      collect_trending_searches self code' name' w0
      = (Ok (PDict [("region_name", name');
                    ("region_code", code');
                    ("error", PStr (exc_str e'));
                    ("collection_time", PStr (isoformat (readings w1)));
                    ("source", PStr "SerpAPI Google Trends")]),
         tick w1)) /\
  (exists run data w' reading,
      collect_all_trends self w = (Ok run, w') /\
      field "trending_searches_data" run = Some (PList data) /\
      length data = length rs /\
      data !! i
      = Some (PDict [("region_name", name);
                     ("region_code", code);
                     ("error", PStr (exc_str e));
                     ("collection_time", PStr (isoformat reading));
                     ("source", PStr "SerpAPI Google Trends")])).
Proof.
  intros Hcfg Hkw Hrs Hok Hen Htrue Hi Hcode Hname Hfail. split_and!.
  - intros code' name' w0.
    destruct (collect_trending_searches_total self code' name' w0)
      as (v & w1 & Hv & _). by exists v, w1.
  - intros code' name' w0 e' w1 Hraise.
    by rewrite collect_trending_searches_eq, Hraise.
  - rewrite (collect_all_trends_eq _ _ _ _ _ _ Hcfg Hkw Hrs Hen).
    destruct (regions_loop_enabled self en (PList rs) _ Htrue eq_refl rs 0%nat []
                (tick w) Hok) as (data & w' & -> & Hlen & Hdata).
    destruct (Hdata i r Hi) as (c & nm & wj & wj' & v & Hc & Hn & Hq & Hv & Hd).
    rewrite Hcode in Hc. injection Hc as <-.
    rewrite Hname in Hn. injection Hn as <-.
    rewrite collect_trending_searches_eq, collect_trending_searches_try_eq in Hv.
    simpl in Hv, Hq. rewrite Hq, Hfail in Hv. injection Hv as <- <-.
    eexists _, data, w', _. by split_and!.
Qed.

(** Writing a run under the default name. *)
Lemma save_to_json_default self cfg data simple w :
  config self = PDict cfg ->
  dict_lookup "output_file" cfg = None ->
  refused "trends_data.json" = None ->
  refused "trends_data_simple.json" = None ->
  create_simple_format data = Ok simple ->
  save_to_json self data PNone w =
  (Ok tt, written "trends_data_simple.json" simple
            (written "trends_data.json" data w)).
Proof.
  intros Hcfg Hout Hfull Hsimple Hfmt.
  unfold save_to_json, bind, lift, json_dump.
  rewrite Hcfg. simpl. unfold dict_get. rewrite Hout, Hfull, Hfmt.
  change (py_replace (PStr "trends_data.json") ".json" "_simple.json")
    with (Ok (PStr "trends_data_simple.json")).
  cbv beta iota. by rewrite Hsimple.
Qed.

End CollectorProperties.

(** ** The reduced projection *)

Lemma simple_query_ok t :
  is_trend_record t = true ->
  exists q, simple_query t = Ok q /\ projects_query t q.
Proof.
  destruct t as [| | | | | |d]; try done. simpl. intros Ht.
  unfold simple_query, trend_category. simpl. unfold dict_get.
  destruct (dict_lookup "categories" d) as [cats|] eqn:Hc.
  - destruct cats as [| | | | |cs|]; try done.
    destruct cs as [|c cs]; simpl.
    + eexists. split; [done|]. split; [|by eexists].
      unfold simple_query, trend_category. simpl. unfold dict_get. by rewrite Hc.
    + simpl in Ht. apply andb_prop in Ht as [Hd _].
      destruct c as [| | | | | |cd]; try done. simpl.
      eexists. split; [done|]. split; [|by eexists].
      unfold simple_query, trend_category. simpl. unfold dict_get. by rewrite Hc.
  - simpl. eexists. split; [done|]. split; [|by eexists].
    unfold simple_query, trend_category. simpl. unfold dict_get. by rewrite Hc.
Qed.

Lemma simple_region_ok r :
  is_region_result r = true ->
  exists e, simple_region r = Ok e /\ projects_region r e.
Proof.
  destruct r as [| | | | | |d]; try done. simpl. intros Hr.
  assert (exists ts, dict_get "trending_searches" (PList []) d = PList ts /\
                     trending_searches_of (PDict d) = ts /\
                     forallb is_trend_record ts = true) as (ts & Hget & Hof & Hts).
  { unfold dict_get, trending_searches_of. simpl.
    destruct (dict_lookup "trending_searches" d) as [v|]; [|by exists []].
    destruct v; try done. by eexists. }
  destruct (append_each_ok projects_query simple_query ts []) as (qs & Hqs & HF).
  { apply Forall_forall. intros t Hin. apply simple_query_ok.
    rewrite forallb_forall in Hts. apply Hts. by apply list_elem_of_In. }
  unfold simple_region. simpl. rewrite Hget. simpl.
  unfold queries_loop. rewrite Hqs. simpl.
  eexists. split; [done|]. eexists _, qs. rewrite Hof.
  split_and!; try done. symmetry. by eapply Forall2_length.
Qed.

(** C5: the entry of a trend record takes as its category the name of the
    first entry of [categories] when there is one, and "Unknown" when
    [categories] is empty. *)
Theorem category_from_first_entry d cats :
  dict_lookup "categories" d = Some (PList cats) ->
  (cats = [] ->
   exists q, simple_query (PDict d) = Ok q /\
             field "category" q = Some (PStr "Unknown")) /\
  (forall c rest name,
      cats = PDict c :: rest ->
      dict_lookup "name" c = Some name ->
      exists q, simple_query (PDict d) = Ok q /\ field "category" q = Some name).
Proof.
  intros Hc. split.
  - intros ->. unfold simple_query, trend_category. simpl. unfold dict_get.
    rewrite Hc. simpl. by eexists.
  - intros c rest name -> Hname.
    unfold simple_query, trend_category. simpl. unfold dict_get.
    rewrite Hc. simpl. unfold dict_get. rewrite Hname. by eexists.
Qed.

(** C6: the reduced projection of a run with K results has the collection
    time and K region entries, in order; each entry keeps the name and the
    code of its region and one query entry per trend record, and a query
    entry keeps the query, the volume, the increase and a category. *)
Theorem simple_format_projection run md rs :
  dict_lookup "metadata" run = Some (PDict md) ->
  dict_lookup "trending_searches_data" run = Some (PList rs) ->
  forallb is_region_result rs = true ->
  exists simple entries,
    create_simple_format (PDict run) = Ok (PDict simple) /\
    dict_keys simple = ["collection_time"; "regions"] /\
    dict_lookup "collection_time" simple = Some (dict_get "collection_time" PNone md) /\
    dict_lookup "regions" simple = Some (PList entries) /\
    length entries = length rs /\
    Forall2 projects_region rs entries.
Proof.
  intros Hmd Hrs Hok.
  destruct (append_each_ok projects_region simple_region rs []) as (es & Hes & HF).
  { apply Forall_forall. intros r Hin. apply simple_region_ok.
    rewrite forallb_forall in Hok. apply Hok. by apply list_elem_of_In. }
  unfold create_simple_format. simpl. unfold dict_get at 1. rewrite Hmd. simpl.
  unfold dict_get at 1. rewrite Hrs. simpl.
  unfold simple_regions_loop. rewrite Hes. simpl.
  eexists _, es. split_and!; try done. symmetry. by eapply Forall2_length.
Qed.

(** ** The path of the reduced file *)

Lemma prefix_app_json p s :
  p <> EmptyString ->
  lacks "."%char p = true ->
  String.prefix p s = false ->
  String.prefix p (s +:+ ".json") = false.
Proof.
  revert s. induction p as [|a p IH]; intros s Hne Hl Hp; [done|].
  simpl in Hl. apply andb_prop in Hl as [Ha Hl].
  destruct s as [|b s]; simpl in *.
  - destruct (Ascii.ascii_dec a "."%char); [|done].
    subst a. by rewrite Ascii.eqb_refl in Ha.
  - destruct (Ascii.ascii_dec a b); [|done].
    apply IH; try done. intros ->. by destruct s.
Qed.

Lemma replace_json_suffix stem :
  str_contains ".json" stem = false ->
  replace_from ".json" "_simple.json" 0 (stem +:+ ".json") = stem +:+ "_simple.json".
Proof.
  induction stem as [|c stem IH]; [done|].
  intros Hc. cbn [str_contains] in Hc. apply orb_false_elim in Hc as [Hp Hc].
  change (String c stem +:+ ".json") with (String c (stem +:+ ".json")).
  cbn [replace_from].
  assert (String.prefix ".json" (String c (stem +:+ ".json")) = false) as ->.
  { cbn [String.prefix] in Hp |- *.
    destruct (Ascii.ascii_dec "."%char c); [|done].
    by apply (prefix_app_json "json"). }
  by rewrite IH.
Qed.

Lemma append_inj_l (s a b : string) : s +:+ a = s +:+ b -> a = b.
Proof. induction s as [|c s IH]; simpl; [done|]. intros [= H]. auto. Qed.

(** For a path that ends in ".json" and has no other occurrence of
    ".json", the replacement puts "_simple" before that extension: the
    result differs from the path and keeps the extension. *)
Theorem simple_path_of_json_path stem :
  str_contains ".json" stem = false ->
  py_replace (PStr (stem +:+ ".json")) ".json" "_simple.json"
    = Ok (PStr (stem +:+ "_simple" +:+ ".json")) /\
  stem +:+ "_simple" +:+ ".json" <> stem +:+ ".json".
Proof.
  intros Hc. split.
  - simpl. unfold str_replace. by rewrite replace_json_suffix.
  - intros H. by apply append_inj_l in H.
Qed.

(** ** Interest over time *)

Lemma keywords_loop_zip kws values i row :
  keywords_loop (PList (PDict <$> values)) i (PStr <$> kws) row =
  Ok (fold_left (fun row kv => dict_set kv.1 (dict_get "value" (PInt 0) kv.2) row)
                (zip kws (drop i values)) row).
Proof.
  revert i row. induction kws as [|k kws IH]; intros i row; [done|].
  cbn [fmap list_fmap keywords_loop py_len obind]. rewrite length_fmap.
  destruct (Z.ltb_spec (Z.of_nat i) (Z.of_nat (length values))) as [Hlt|Hge].
  - destruct (lookup_lt_is_Some_2 values i ltac:(lia)) as [v Hv].
    cbn [py_index]. rewrite list_lookup_fmap, Hv. cbn.
    rewrite IH. by rewrite (drop_S _ _ _ Hv).
  - cbn. rewrite IH. rewrite !drop_ge by lia. by destruct kws.
Qed.

Lemma timeline_loop_zip kws timeline points interest :
  Forall2 is_point timeline points ->
  timeline_loop (PList (PStr <$> kws)) timeline interest =
  Ok (fold_left (fun interest p =>
                   if negb (String.eqb p.1 "") && match p.2 with [] => false | _ => true end
                   then dict_set p.1 (PDict (zip_row kws p.2)) interest
                   else interest)
                points interest).
Proof.
  intros H. revert interest.
  induction H as [|data_point [date values] timeline points (d & -> & Hd & Hv) _ IH];
    intros interest; [done|].
  cbn [timeline_loop py_get obind fold_left fst snd] in *. rewrite Hd, Hv.
  assert (truthy (PList (PDict <$> values))
          = match values with [] => false | _ => true end) as -> by by destruct values.
  cbn [truthy]. destruct (negb (String.eqb date "") && _); cbn [obind].
  - cbn [py_key py_iter obind]. rewrite keywords_loop_zip. cbn [obind].
    rewrite drop_0. apply IH.
  - apply IH.
Qed.

Lemma related_loop_copy kws related out :
  related_loop (PDict related) (PStr <$> kws) out =
  Ok (fold_left (fun out k =>
                   match dict_lookup k related with
                   | Some v => dict_set k v out
                   | None => out
                   end)
                kws out).
Proof.
  revert out. induction kws as [|k kws IH]; intros out; [done|].
  cbn [fmap list_fmap related_loop py_key py_contains py_getitem obind fold_left].
  unfold dict_mem. destruct (dict_lookup k related); cbn [obind]; apply IH.
Qed.

Lemma join_loop_strings sep i kws :
  exists q, join_loop sep i (PStr <$> kws) = Ok q.
Proof.
  revert i. induction kws as [|k kws IH]; intros i; [by eexists|].
  cbn [fmap list_fmap join_loop]. destruct kws as [|k' kws]; [by eexists|].
  destruct (IH (S i)) as [q Hq]. cbn [fmap list_fmap] in *. rewrite Hq.
  by eexists.
Qed.

(** The i-th keyword gets the i-th value. *)
Lemma zip_fold_other kws (values : list dict) row k :
  k ∉ kws ->
  dict_lookup k
    (fold_left (fun row kv => dict_set kv.1 (dict_get "value" (PInt 0) kv.2) row)
               (zip kws values) row)
  = dict_lookup k row.
Proof.
  revert values row. induction kws as [|k0 kws IH]; intros values row Hk; [done|].
  apply not_elem_of_cons in Hk as [Hne Hk].
  destruct values as [|v0 values]; [done|]. cbn.
  rewrite IH by done. by apply dict_lookup_set_ne.
Qed.

Lemma zip_row_within kws (values : list dict) i k v :
  NoDup kws -> kws !! i = Some k -> values !! i = Some v ->
  dict_lookup k (zip_row kws values) = Some (dict_get "value" (PInt 0) v).
Proof.
  unfold zip_row. generalize (@nil (string * pyval)) as row.
  intros row Hnd. revert values row i.
  induction Hnd as [|k0 kws Hk0 Hnd IH]; intros values row i Hk Hv; [done|].
  destruct values as [|v0 values]; [done|]. cbn.
  destruct i as [|i]; simpl in Hk, Hv.
  - injection Hk as ->. injection Hv as ->.
    rewrite zip_fold_other by done. apply dict_lookup_set_eq.
  - by eapply IH.
Qed.

(** A keyword beyond the values gets nothing. *)
Lemma zip_row_beyond kws (values : list dict) i k :
  NoDup kws -> kws !! i = Some k -> (length values <= i)%nat ->
  dict_lookup k (zip_row kws values) = None.
Proof.
  unfold zip_row. change (@None pyval) with (dict_lookup k []).
  generalize (@nil (string * pyval)) as row.
  intros row Hnd. revert values row i.
  induction Hnd as [|k0 kws Hk0 Hnd IH]; intros values row i Hk Hlen; [done|].
  destruct values as [|v0 values]; [done|]. cbn.
  destruct i as [|i]; simpl in Hk, Hlen; [lia|].
  rewrite (IH values _ i) by (done || lia).
  apply dict_lookup_set_ne. intros ->.
  apply Hk0. by eapply list_elem_of_lookup_2.
Qed.

Lemma copy_related_fold kws related out k :
  dict_lookup k
    (fold_left (fun out k =>
                  match dict_lookup k related with
                  | Some v => dict_set k v out
                  | None => out
                  end)
               kws out)
  = if decide (k ∈ kws)
    then match dict_lookup k related with
         | Some v => Some v
         | None => dict_lookup k out
         end
    else dict_lookup k out.
Proof.
  revert out. induction kws as [|k0 kws IH]; intros out; [done|].
  cbn [fold_left]. rewrite IH.
  assert (dict_lookup k
            match dict_lookup k0 related with
            | Some v => dict_set k0 v out
            | None => out
            end
          = if decide (k = k0)
            then match dict_lookup k related with
                 | Some v => Some v
                 | None => dict_lookup k out
                 end
            else dict_lookup k out) as ->.
  { destruct (decide (k = k0)) as [->|Hne].
    - destruct (dict_lookup k0 related); [apply dict_lookup_set_eq | done].
    - destruct (dict_lookup k0 related); [|done].
      by apply dict_lookup_set_ne. }
  destruct (decide (k ∈ k0 :: kws)) as [Hin0|Hin0];
    destruct (decide (k ∈ kws)) as [Hin|Hin];
    destruct (decide (k = k0)) as [Heq|Hne];
    rewrite elem_of_cons in Hin0; try tauto;
    by destruct (dict_lookup k related).
Qed.

Lemma copy_related_empty kws : copy_related kws [] = [].
Proof. unfold copy_related. by induction kws. Qed.

(** A keyword's sub-mapping is copied as it is; nothing else is. *)
Lemma copy_related_lookup kws related k :
  dict_lookup k (copy_related kws related)
  = if decide (k ∈ kws) then dict_lookup k related else None.
Proof.
  unfold copy_related. rewrite copy_related_fold.
  destruct (decide (k ∈ kws)); [|done]. by destruct (dict_lookup k related).
Qed.

Section InterestProperties.

Context {services : Services}.

(** C9: for keywords [kws] and a response in which each of the three
    sections is absent or a mapping, the record returned holds, per date
    of the timeline, the value list zipped against the keyword list, the
    i-th value under the i-th keyword, keywords beyond the values and dates
    without values left out, and for each of the two related sections the
    entries of exactly the keywords that have one, unchanged; an absent
    section gives an empty mapping. *)
Theorem interest_by_position self cfg kws code name w results
    (interest : option dict) timeline points (topics queries : option dict) :
  config self = PDict cfg ->
  (forall params, client (length (requests w)) params = Response results) ->
  dict_lookup "interest_over_time" results = PDict <$> interest ->
  dict_get "timeline_data" (PList []) (default [] interest) = PList timeline ->
  Forall2 is_point timeline points ->
  dict_lookup "related_topics" results = PDict <$> topics ->
  dict_lookup "related_queries" results = PDict <$> queries ->
  (exists v w',
      collect_interest_over_time self (PList (PStr <$> kws)) (PStr code) name w
        = (Ok v, w') /\
      field "interest_over_time" v = Some (PDict (zip_timeline kws points)) /\
      field "related_topics" v = Some (PDict (copy_related kws (default [] topics))) /\
      field "related_queries" v
        = Some (PDict (copy_related kws (default [] queries)))) /\
  (forall values i k val,
      NoDup kws -> kws !! i = Some k -> values !! i = Some val ->
      dict_lookup k (zip_row kws values) = Some (dict_get "value" (PInt 0) val)) /\
  (forall values i k,
      NoDup kws -> kws !! i = Some k -> (length values <= i)%nat ->
      dict_lookup k (zip_row kws values) = None) /\
  (forall related k,
      dict_lookup k (copy_related kws related)
      = if decide (k ∈ kws) then dict_lookup k related else None).
Proof.
  intros Hcfg Hclient Hint Htl Hpts Htopics Hqueries. split_and!.
  - assert (interest_section results (PList (PStr <$> kws))
            = Ok (zip_timeline kws points)) as Hi.
    { unfold interest_section. rewrite Hint.
      destruct interest as [io|]; simpl in *.
      - rewrite Htl. cbn [py_iter obind]. by apply timeline_loop_zip.
      - injection Htl as <-. by inversion Hpts. }
    assert (forall name related,
               dict_lookup name results = PDict <$> related ->
               related_section name results (PList (PStr <$> kws))
               = Ok (copy_related kws (default [] related))) as Hr.
    { intros nm related H. unfold related_section. rewrite H.
      destruct related as [rel|]; simpl.
      - apply related_loop_copy.
      - by rewrite copy_related_empty. }
    unfold collect_interest_over_time, try_except,
      collect_interest_over_time_try, bind, lift, get_dict, py_join.
    cbn [geo_mapping_get py_iter obind].
    destruct (join_loop_strings "," 0 kws) as [q ->]. cbn [obind].
    rewrite Hcfg. cbn [py_get]. rewrite Hclient.
    cbn [datetime_now_isoformat].
    rewrite Hi, (Hr _ _ Htopics), (Hr _ _ Hqueries). cbn [obind].
    by eexists _, _.
  - intros values i k val. apply zip_row_within.
  - intros values i k. apply zip_row_beyond.
  - intros related k. apply copy_related_lookup.
Qed.

End InterestProperties.

(** ** The properties on the sample documents *)

(** The example of the specification: three items and a count of 2 give the
    records of [a] and [b], the second with the default volume. *)
Example two_of_three_items :
  field "trending_searches"
    (default PNone
       (match (collect_trending_searches (services := answering sample_results)
                 (sample_collector 2) (PStr "PL") (PStr "Poland") sample_world).1 with
        | Ok v => Some v
        | _ => None
        end))
  = Some (PList
      [PDict [("query", PStr "a"); ("search_volume", PInt 10);
              ("increase_percentage", PInt 0); ("active", PBool true);
              ("categories", PList []); ("related_queries", PList []);
              ("start_timestamp", PInt 0)];
       PDict [("query", PStr "b"); ("search_volume", PInt 0);
              ("increase_percentage", PInt 0); ("active", PBool true);
              ("categories", PList []); ("related_queries", PList []);
              ("start_timestamp", PInt 0)]]).
Proof. reflexivity. Qed.

(** An item that is not a mapping makes the normalisation raise; the region
    gets a failure record and no trend record. *)
Example item_without_get :
  (collect_trending_searches (services := answering sample_malformed_results)
     (sample_collector 2) (PStr "PL") (PStr "Poland") sample_world).1
  = Ok (failure_record (PStr "PL") (PStr "Poland")
          (Exn AttributeError "'str' object has no attribute 'get'")
          (PStr "2024-05-01T12:00:01")).
Proof. reflexivity. Qed.

Example replace_every_occurrence :
  str_replace ".json" "_simple.json" "runs.json.d/trends.json"
  = "runs_simple.json.d/trends_simple.json".
Proof. reflexivity. Qed.

Example slice_with_negative_stop :
  py_slice_to (PList [PInt 1; PInt 2; PInt 3]) (PInt (-1)) = Ok (PList [PInt 1; PInt 2])
  /\ py_slice_to (PList [PInt 1; PInt 2; PInt 3]) (PInt (-5)) = Ok (PList [])
  /\ py_slice_to (PList [PInt 1; PInt 2; PInt 3]) PNone
      = Ok (PList [PInt 1; PInt 2; PInt 3]).
Proof. by split_and!. Qed.

Lemma one_result_per_region_sample :
  exists run data w',
    collect_all_trends (services := answering sample_results)
      (sample_collector 2) sample_world = (Ok run, w') /\
    field "trending_searches_data" run = Some (PList data) /\
    length data = 2%nat /\
    forall i r, [poland; germany] !! i = Some r ->
      exists v, data !! i = Some v /\
                is_Some (field "code" r) /\
                is_Some (field "name" r) /\
                field "region_code" v = field "code" r /\
                field "region_name" v = field "name" r.
Proof.
  apply (one_result_per_region (services := answering sample_results)
           (sample_collector 2) (sample_config 2) (PList [PStr "python"])
           [poland; germany] (PBool true) sample_world); reflexivity.
Defined.

Lemma trending_list_normalised_sample :
  0 <= 2 /\
  exists v w' recs,
    collect_trending_searches (services := answering sample_results)
      (sample_collector 2) (PStr "PL") (PStr "Poland") sample_world = (Ok v, w') /\
    field "trending_searches" v = Some (PList (PDict <$> recs)) /\
    Z.of_nat (length recs) = Z.min (Z.of_nat (length sample_items)) 2 /\
    forall i rec, recs !! i = Some rec ->
      exists item,
        sample_items !! i = Some item /\
        dict_keys rec = trend_fields.*1 /\
        forall f src dflt, (f, (src, dflt)) ∈ trend_fields ->
          dict_lookup f rec = Some (dict_get src dflt item).
Proof.
  split; [lia|].
  apply (trending_list_normalised (services := answering sample_results)
           (sample_collector 2) (PStr "PL") (PStr "Poland") sample_world
           sample_results sample_items 2); [reflexivity .. | lia].
Defined.

(** C2 as worded fails for a negative count: of three items, a count of -1
    keeps two, and min(3,-1) is not two. *)
Lemma negative_count_keeps_all_but_last :
  exists v w' recs,
    collect_trending_searches (services := answering sample_results)
      (sample_collector (-1)) (PStr "PL") (PStr "Poland") sample_world = (Ok v, w') /\
    field "trending_searches" v = Some (PList recs) /\
    length sample_items = 3%nat /\
    length recs = 2%nat /\
    Z.of_nat (length recs) <> Z.min (Z.of_nat (length sample_items)) (-1).
Proof.
  eexists _, _, _. split; [vm_compute; reflexivity|].
  split; [reflexivity|]. split; [reflexivity|]. split; [reflexivity|].
  vm_compute. discriminate.
Qed.

Lemma failure_contained_sample :
  exists run data w' reading,
    collect_all_trends (services := failing_second) (sample_collector 2) sample_world
      = (Ok run, w') /\
    field "trending_searches_data" run = Some (PList data) /\
    length data = 2%nat /\
    data !! 1%nat =
      Some (PDict [("region_name", PStr "Germany");
                   ("region_code", PStr "DE");
                   ("error", PStr "HTTP 429: too many requests");
                   ("collection_time", PStr (sample_isoformat reading));
                   ("source", PStr "SerpAPI Google Trends")]).
Proof.
  apply (failure_contained (services := failing_second) (sample_collector 2)
           (sample_config 2) (PList [PStr "python"]) [poland; germany] (PBool true)
           sample_world 1%nat germany (PStr "DE") (PStr "Germany")
           (Exn ClientError "HTTP 429: too many requests"));
    reflexivity.
Defined.

Lemma missing_list_reported_sample :
  dict_mem "trending_searches" sample_error_results = false /\
  exists v w',
    collect_trending_searches (services := answering sample_error_results)
      (sample_collector 2) (PStr "PL") (PStr "Poland") sample_world = (Ok v, w') /\
    field "trending_searches" v = Some (PList []) /\
    field "error" v = Some (PStr "Brak danych w odpowiedzi SerpAPI") /\
    "Brak danych w odpowiedzi SerpAPI" <> "" /\
    field "api_error" v = Some (PStr "Invalid API key.").
Proof.
  split; [reflexivity|].
  apply (missing_list_reported (services := answering sample_error_results) (sample_collector 2)
           (PStr "PL") (PStr "Poland") sample_world sample_error_results);
    reflexivity.
Defined.

Lemma category_from_first_entry_sample :
  exists q, simple_query (PDict sample_trend) = Ok q /\
            field "category" q = Some (PStr "Sports").
Proof.
  destruct (category_from_first_entry sample_trend
              [PDict [("id", PInt 17); ("name", PStr "Sports")]] eq_refl)
    as [_ H].
  apply (H [("id", PInt 17); ("name", PStr "Sports")] []); reflexivity.
Defined.

Lemma simple_format_projection_sample :
  exists simple entries,
    create_simple_format (PDict sample_run) = Ok (PDict simple) /\
    dict_keys simple = ["collection_time"; "regions"] /\
    dict_lookup "collection_time" simple = Some (PStr "2024-05-01T12:00:00") /\
    dict_lookup "regions" simple = Some (PList entries) /\
    length entries = 2%nat /\
    Forall2 projects_region sample_region_results entries.
Proof.
  exact (simple_format_projection sample_run _ sample_region_results
           eq_refl eq_refl eq_refl).
Defined.

Lemma simple_path_of_json_path_sample :
  str_contains ".json" "out/trends_data" = false /\
  py_replace (PStr "out/trends_data.json") ".json" "_simple.json"
    = Ok (PStr "out/trends_data_simple.json") /\
  "out/trends_data_simple.json" <> "out/trends_data.json".
Proof.
  split; [reflexivity|].
  apply (simple_path_of_json_path "out/trends_data"). reflexivity.
Defined.

(** C7: for the full output path out/trends.txt the path of the reduced
    file is not the path with a suffix before the extension but the same
    path: [save_to_json] writes the projection to it, over the run it has
    just written, and the file holds the projection, which is not the run. *)
Lemma path_without_json_is_reused :
  py_replace (PStr "out/trends.txt") ".json" "_simple.json"
    = Ok (PStr "out/trends.txt") /\
  exists simple w',
    create_simple_format (PDict sample_run) = Ok simple /\
    save_to_json (services := answering sample_results) (sample_collector 2)
      (PDict sample_run) (PStr "out/trends.txt") sample_world = (Ok tt, w') /\
    files w' !! "out/trends.txt" = Some simple /\
    simple <> PDict sample_run.
Proof.
  split; [reflexivity|].
  eexists _, _. split; [reflexivity|]. split; [reflexivity|]. split.
  - apply lookup_insert_eq.
  - discriminate.
Qed.

(** C8 as worded fails: a configuration that has the key of the service but
    no [keywords], or no [regions], makes the run raise [KeyError]. *)
Lemma run_fails_without_keywords_or_regions :
  (exists self,
      TrendsCollector_init (PDict config_without_keywords) = Ok self /\
      run (services := answering sample_results)
        self sample_world = (Raise (Exn KeyError "'keywords'"), sample_world)) /\
  (exists self,
      TrendsCollector_init (PDict config_without_regions) = Ok self /\
      run (services := answering sample_results)
        self sample_world = (Raise (Exn KeyError "'regions'"), sample_world)).
Proof. split; eexists; split; reflexivity. Qed.

Lemma interest_by_position_sample :
  exists v w',
    collect_interest_over_time (services := answering sample_partial_results)
      (sample_collector 2) (PList (PStr <$> ["python"; "rust"])) (PStr "PL")
      (PStr "Poland") sample_world
      = (Ok v, w') /\
    field "interest_over_time" v =
      Some (PDict [("May 1", PDict [("python", PInt 40); ("rust", PInt 75)]);
                   ("May 3", PDict [("python", PInt 55)])]) /\
    field "related_topics" v = Some (PDict [("rust", PList [PStr "Cargo"])]) /\
    field "related_queries" v = Some (PDict []).
Proof.
  assert (Forall2 is_point sample_timeline sample_points) as Hpoints.
  { repeat constructor; by eexists. }
  exact (proj1 (interest_by_position (services := answering sample_partial_results)
                  (sample_collector 2) (sample_config 2) ["python"; "rust"] "PL"
                  (PStr "Poland") sample_world sample_partial_results
                  (Some [("timeline_data", PList sample_timeline)])
                  sample_timeline sample_points
                  (Some [("rust", PList [PStr "Cargo"])]) None
                  eq_refl (fun _ => eq_refl) eq_refl eq_refl Hpoints
                  eq_refl eq_refl)).
Defined.


(** * Further properties of the collector *)

(** A loop stops at the first item on which its body raises. *)
Lemma append_each_raise body pre bad rest out e :
  Forall (fun x => exists y, body x = Ok y) pre ->
  body bad = Raise e ->
  append_each body (pre ++ bad :: rest) out = Raise e.
Proof.
  intros H Hbad. revert out. induction H as [|x pre [y Hy] _ IH]; intros out; simpl.
  - by rewrite Hbad.
  - rewrite Hy. simpl. apply IH.
Qed.

Lemma is_dict_false_get item k v :
  is_dict item = false -> py_get item k v = Raise (no_attribute item "get").
Proof. by destruct item. Qed.

(** X1: a collector is built only from a mapping whose [serpapi_key] is set;
    a mapping without a set key gives [ValueError] with the fixed message,
    and a document that is not a mapping gives [AttributeError]. *)
Theorem init_needs_mapping_with_key loaded :
  match TrendsCollector_init loaded with
  | Ok self =>
      exists cfg key,
        loaded = PDict cfg /\ dict_lookup "serpapi_key" cfg = Some key /\
        truthy key = true /\ config self = loaded /\ api_key self = key
  | Raise e =>
      (is_dict loaded = false /\ e = no_attribute loaded "get") \/
      (exists cfg,
          loaded = PDict cfg /\
          truthy (dict_get "serpapi_key" PNone cfg) = false /\
          e = Exn ValueError "Brak serpapi_key w pliku konfiguracyjnym!")
  | Unmodelled => False
  end.
Proof.
  unfold TrendsCollector_init.
  destruct loaded as [| | | | | |cfg]; simpl; try (by left).
  unfold dict_get.
  destruct (dict_lookup "serpapi_key" cfg) as [key|] eqn:Hk; simpl.
  - destruct (truthy key) eqn:Ht; simpl.
    + exists cfg, key. by split_and!.
    + right. exists cfg. rewrite Hk. by split_and!.
  - right. exists cfg. rewrite Hk. by split_and!.
Qed.

Section TrendingProperties.

Context {services : Services}.

(** What one call does to the world. *)
Lemma collect_trending_searches_world self code name w :
  let w' := (collect_trending_searches self code name w).2 in
  requests w' = requests w ++ [trending_params self code] /\
  slept w' = slept w /\
  files w' = files w /\
  (readings w < readings w' <= readings w + 2)%nat.
Proof.
  rewrite collect_trending_searches_eq, collect_trending_searches_try_eq. simpl.
  destruct (client _ _) as [results|e]; simpl; [|split_and!; try done; lia].
  destruct (dict_mem _ results); simpl; [|split_and!; try done; lia].
  destruct (trending_found _ _ _); simpl; split_and!; try done; lia.
Qed.

(** X2: one call sends exactly one request, for the engine of trending
    searches with the key and the code of the region as [geo]; it never
    pauses and writes no file.  It reads the clock once, or twice when the
    client answered with a list and normalising it raised, and the
    [collection_time] of the record is the last reading. *)
Theorem one_request_per_call self code name w :
  exists v w',
    collect_trending_searches self code name w = (Ok v, w') /\
    requests w' =
      requests w ++ [PDict [("api_key", api_key self);
                            ("engine", PStr "google_trends_trending_now");
                            ("geo", code)]] /\
    slept w' = slept w /\
    files w' = files w /\
    readings w'
    = (readings w +
       match client (length (requests w)) (trending_params self code) with
       | Response results =>
           if dict_mem "trending_searches" results
           then match trending_found self results
                        (trending_record code name (PStr (isoformat (readings w)))) with
                | Raise _ => 2
                | _ => 1
                end
           else 1
       | Failure _ => 1
       end)%nat /\
    field "collection_time" v = Some (PStr (isoformat (Nat.pred (readings w')))).
Proof.
  rewrite collect_trending_searches_eq.
  pose proof (collect_trending_searches_try_modelled self code name w) as Hm.
  rewrite collect_trending_searches_try_eq in *. simpl in *.
  destruct (client _ _) as [results|e].
  - destruct (dict_mem _ results); simpl in *.
    + fold (now w) in *.
      destruct (trending_found _ _ _) as [v|e|] eqn:Hf; [| |done].
      * apply trending_found_shape in Hf as [recs ->].
        eexists _, _. split; [done|]. simpl. split_and!; try done; lia.
      * eexists _, _. split; [done|]. simpl. split_and!; try done; lia.
    + eexists _, _. split; [done|]. simpl.
      unfold trending_missing.
      destruct (dict_lookup "error" results); split_and!; try done; lia.
  - eexists _, _. split; [done|]. simpl. split_and!; try done; lia.
Qed.

(** The records are those of the items the slice keeps, when these are
    mappings. *)
Lemma trending_found_kept self results trending_data count stop items ds :
  configured_count self = Ok count ->
  slice_stop count = Ok stop ->
  dict_lookup "trending_searches" results = Some (PList items) ->
  take_upto stop items = PDict <$> ds ->
  trending_found self results trending_data =
  Ok (PDict (dict_set "trending_searches" (PList (PDict <$> (trend_record <$> ds)))
               trending_data)).
Proof.
  intros Hcount Hstop Hl Hkept. unfold trending_found.
  rewrite Hcount. simpl. rewrite Hl. simpl. rewrite Hstop. simpl.
  rewrite Hkept, trends_loop_dicts. done.
Qed.

Lemma collect_trending_searches_kept self code name w results count stop items ds :
  client (length (requests w)) (trending_params self code) = Response results ->
  configured_count self = Ok count ->
  slice_stop count = Ok stop ->
  dict_lookup "trending_searches" results = Some (PList items) ->
  take_upto stop items = PDict <$> ds ->
  exists v w',
    collect_trending_searches self code name w = (Ok v, w') /\
    field "trending_searches" v = Some (PList (PDict <$> (trend_record <$> ds))).
Proof.
  intros Hc Hcount Hstop Hl Hkept.
  rewrite collect_trending_searches_eq, collect_trending_searches_try_eq.
  simpl. rewrite Hc. unfold dict_mem. rewrite Hl.
  rewrite (trending_found_kept _ _ _ _ _ _ _ Hcount Hstop Hl Hkept).
  by eexists _, _.
Qed.

(** The record of a call whose normalisation raises [e]. *)
Lemma collect_trending_searches_raised self code name w results e :
  client (length (requests w)) (trending_params self code) = Response results ->
  dict_mem "trending_searches" results = true ->
  trending_found self results (trending_record code name (now w)) = Raise e ->
  collect_trending_searches self code name w =
  (Ok (failure_record code name e
         (now (tick (sent (trending_params self code) w)))),
   tick (tick (sent (trending_params self code) w))).
Proof.
  intros Hc Hmem Hf.
  rewrite collect_trending_searches_eq, collect_trending_searches_try_eq.
  simpl. by rewrite Hc, Hmem, Hf.
Qed.

(** X3: a count of [None] (a [count:] left empty in the configuration)
    keeps every item of the list. *)
Theorem null_count_keeps_everything self code name w results ds :
  client (length (requests w)) (trending_params self code) = Response results ->
  configured_count self = Ok PNone ->
  dict_lookup "trending_searches" results = Some (PList (PDict <$> ds)) ->
  exists v w',
    collect_trending_searches self code name w = (Ok v, w') /\
    field "trending_searches" v = Some (PList (PDict <$> (trend_record <$> ds))).
Proof.
  intros Hc Hcount Hl.
  by apply (collect_trending_searches_kept self code name w results PNone None
              (PDict <$> ds) ds).
Qed.

(** X4: a negative count K drops the last |K| items: of M items the first
    max(M+K,0) are kept, in order. *)
Theorem negative_count_drops_from_the_end self code name w results ds K :
  client (length (requests w)) (trending_params self code) = Response results ->
  configured_count self = Ok (PInt K) ->
  K < 0 ->
  dict_lookup "trending_searches" results = Some (PList (PDict <$> ds)) ->
  exists v w' recs,
    collect_trending_searches self code name w = (Ok v, w') /\
    field "trending_searches" v = Some (PList (PDict <$> recs)) /\
    Z.of_nat (length recs) = Z.max (Z.of_nat (length ds) + K) 0 /\
    forall i rec, recs !! i = Some rec ->
      exists item, ds !! i = Some item /\ rec = trend_record item.
Proof.
  intros Hc Hcount HK Hl.
  set (n := Z.to_nat (Z.of_nat (length ds) + K)).
  destruct (collect_trending_searches_kept self code name w results (PInt K)
              (Some K) (PDict <$> ds) (take n ds) Hc Hcount eq_refl Hl)
    as (v & w' & Hv & Hf).
  { simpl. destruct (Z.leb_spec 0 K); [lia|].
    rewrite length_fmap. by rewrite fmap_take. }
  exists v, w', (trend_record <$> take n ds). split_and!; try done.
  - rewrite length_fmap, length_take. unfold n. lia.
  - intros i rec Hi. rewrite list_lookup_fmap in Hi.
    destruct (take n ds !! i) as [item|] eqn:Ht; [|done].
    injection Hi as <-. apply lookup_take_Some in Ht as [Ht _]. by exists item.
Qed.

(** X5: a count that is neither an integer nor [None] makes the slice
    raise [TypeError]; the region gets the failure record, with that
    message, and no trend record. *)
Theorem unusable_count_fails_the_region self code name w results items count e :
  client (length (requests w)) (trending_params self code) = Response results ->
  configured_count self = Ok count ->
  slice_stop count = Raise e ->
  dict_lookup "trending_searches" results = Some (PList items) ->
  exists t w',
    collect_trending_searches self code name w
      = (Ok (failure_record code name e t), w') /\
    exc_str e = "slice indices must be integers or None or have an __index__ method".
Proof.
  intros Hc Hcount Hstop Hl.
  erewrite collect_trending_searches_raised; [| done | |].
  - eexists _, _. split; [done|]. by destruct count; simplify_eq/=.
  - unfold dict_mem. by rewrite Hl.
  - unfold trending_found. rewrite Hcount. simpl. rewrite Hl. simpl.
    by rewrite Hstop.
Qed.

(** X6: an item within the count that is not a mapping makes [.get] raise
    [AttributeError]; the records of the items before it are dropped and the
    region gets the failure record. *)
Theorem item_without_get_fails_the_region self code name w results ds bad rest K :
  client (length (requests w)) (trending_params self code) = Response results ->
  configured_count self = Ok (PInt K) ->
  Z.of_nat (length ds) < K ->
  is_dict bad = false ->
  dict_lookup "trending_searches" results
    = Some (PList ((PDict <$> ds) ++ bad :: rest)) ->
  exists t w',
    collect_trending_searches self code name w
      = (Ok (failure_record code name (no_attribute bad "get") t), w').
Proof.
  intros Hc Hcount HK Hbad Hl.
  erewrite collect_trending_searches_raised; [by eexists _, _ | done | |].
  - unfold dict_mem. by rewrite Hl.
  - unfold trending_found. rewrite Hcount. simpl. rewrite Hl. simpl.
    destruct (Z.leb_spec 0 K); [|lia].
    rewrite take_app_ge by (rewrite length_fmap; lia).
    rewrite length_fmap.
    replace (Z.to_nat K - length ds)%nat with (S (Z.to_nat K - length ds - 1)) by lia.
    simpl. unfold trends_loop.
    rewrite (append_each_raise _ _ _ _ _ (no_attribute bad "get")); [done| |].
    + apply Forall_fmap, Forall_forall. intros d _. by eexists.
    + unfold trend_data. by rewrite is_dict_false_get.
Qed.

(** X7: items beyond the count are never looked at: whatever they are, the
    records are those of the first K items. *)
Theorem items_beyond_count_ignored self code name w results ds rest K :
  client (length (requests w)) (trending_params self code) = Response results ->
  configured_count self = Ok (PInt K) ->
  0 <= K <= Z.of_nat (length ds) ->
  dict_lookup "trending_searches" results = Some (PList ((PDict <$> ds) ++ rest)) ->
  exists v w',
    collect_trending_searches self code name w = (Ok v, w') /\
    field "trending_searches" v
      = Some (PList (PDict <$> (trend_record <$> take (Z.to_nat K) ds))).
Proof.
  intros Hc Hcount HK Hl.
  apply (collect_trending_searches_kept self code name w results (PInt K)
           (Some K) ((PDict <$> ds) ++ rest) (take (Z.to_nat K) ds)); try done.
  simpl. destruct (Z.leb_spec 0 K); [|lia].
  rewrite take_app_le by (rewrite length_fmap; lia). by rewrite fmap_take.
Qed.

End TrendingProperties.

Section OrchestratorProperties.

Context {services : Services}.

(** X8: when the [trending_searches] setting is not a mapping, reading the
    enabled flag raises [AttributeError]; this happens outside any [try],
    so the run ends before a request is sent or the clock is read. *)
Theorem settings_must_be_a_mapping self cfg keywords regions section w :
  config self = PDict cfg ->
  dict_lookup "keywords" cfg = Some keywords ->
  dict_lookup "regions" cfg = Some regions ->
  dict_lookup "trending_searches" cfg = Some section ->
  is_dict section = false ->
  collect_all_trends self w = (Raise (no_attribute section "get"), w).
Proof.
  intros Hcfg Hkw Hrs Hsec Hnd.
  unfold collect_all_trends, bind, lift, configured_enabled.
  rewrite Hcfg. simpl. rewrite Hkw, Hrs. unfold dict_get. rewrite Hsec. simpl.
  by rewrite is_dict_false_get.
Qed.

(** The pass stops at the first region without a name or a code. *)
Lemma regions_loop_malformed self en regions n bad rest e :
  py_len regions = Ok n ->
  (py_getitem bad "name" = Raise e \/
   exists name, py_getitem bad "name" = Ok name /\ py_getitem bad "code" = Raise e) ->
  forall good i acc w,
    forallb is_region good = true ->
    exists w',
      regions_loop self en regions i (good ++ bad :: rest) acc w = (Raise e, w') /\
      length (requests w')
      = (length (requests w) + if truthy en then length good else 0)%nat.
Proof.
  intros Hn Hbad. induction good as [|r good IH]; intros i acc w Hok.
  - exists w. split; [|destruct (truthy en); simpl; lia].
    simpl. unfold bind, lift.
    destruct Hbad as [->|(name & -> & ->)]; done.
  - simpl in Hok. apply andb_prop in Hok as [Hr Hok].
    destruct r as [| | | | | |d]; try done. simpl in Hr.
    apply andb_prop in Hr as [Hname Hcode].
    apply dict_mem_true in Hname as [name Hname].
    apply dict_mem_true in Hcode as [code Hcode].
    destruct (truthy en) eqn:Hen.
    + destruct (collect_trending_searches_total self code name w)
        as (v & w1 & Hv & _ & _ & Hreq).
      set (w2 := if Z.of_nat i <? n - 1 then paused 3 (paused 2 w1) else paused 2 w1).
      destruct (IH (S i) (acc ++ [v]) w2 Hok) as (w' & Hloop & Hlen).
      exists w'. split.
      * simpl. unfold bind at 1, lift. simpl. rewrite Hname.
        unfold bind at 1. simpl. rewrite Hcode.
        unfold bind at 1. rewrite Hen.
        unfold bind at 1. rewrite Hv.
        unfold bind at 1, time_sleep, ret.
        unfold bind at 1. rewrite Hn.
        unfold bind at 1. rewrite <- Hloop. unfold w2.
        by destruct (Z.of_nat i <? n - 1).
      * rewrite Hlen. assert (requests w2 = requests w1) as ->.
        { unfold w2. by destruct (Z.of_nat i <? n - 1). }
        rewrite Hreq, length_app. simpl. lia.
    + set (w2 := if Z.of_nat i <? n - 1 then paused 3 w else w).
      destruct (IH (S i) acc w2 Hok) as (w' & Hloop & Hlen).
      exists w'. split.
      * simpl. unfold bind at 1, lift. simpl. rewrite Hname.
        unfold bind at 1. simpl. rewrite Hcode.
        unfold bind at 1. rewrite Hen. unfold ret.
        unfold bind at 1. rewrite Hn.
        unfold bind at 1. rewrite <- Hloop. unfold w2, time_sleep.
        by destruct (Z.of_nat i <? n - 1).
      * rewrite Hlen. assert (requests w2 = requests w) as ->.
        { unfold w2. by destruct (Z.of_nat i <? n - 1). }
        lia.
Qed.

(** X9: a region entry without a [name] or a [code] is read outside any
    [try]: the run raises [KeyError] for the first missing key, after the
    regions before it have been requested, and their results are lost. *)
Theorem malformed_region_aborts_run self cfg keywords good bad rest en w :
  config self = PDict cfg ->
  dict_lookup "keywords" cfg = Some keywords ->
  dict_lookup "regions" cfg = Some (PList (good ++ PDict bad :: rest)) ->
  forallb is_region good = true ->
  is_region (PDict bad) = false ->
  configured_enabled self = Ok en ->
  exists w',
    collect_all_trends self w
      = (Raise (Exn KeyError (quote (if dict_mem "name" bad then "code" else "name"))),
         w') /\
    length (requests w')
    = (length (requests w) + if truthy en then length good else 0)%nat.
Proof.
  intros Hcfg Hkw Hrs Hgood Hbad Hen.
  rewrite (collect_all_trends_eq _ _ _ _ _ _ Hcfg Hkw Hrs Hen).
  destruct (regions_loop_malformed self en (PList (good ++ PDict bad :: rest)) _
              (PDict bad) rest
              (Exn KeyError (quote (if dict_mem "name" bad then "code" else "name")))
              eq_refl) with (good := good) (i := 0%nat) (acc := @nil pyval) (w := tick w)
    as (w' & -> & Hlen); [|done|by exists w'].
  simpl in Hbad |- *. unfold dict_mem in *.
  destruct (dict_lookup "name" bad) as [name|]; [|by left].
  right. exists name. split; [done|].
  by destruct (dict_lookup "code" bad).
Qed.

(** The requests and the pauses of a pass that visits the regions from
    [i] to the last. *)
Lemma regions_loop_effects self en regions n :
  py_len regions = Ok n ->
  forall items i acc w,
    forallb is_region items = true ->
    Z.of_nat i + Z.of_nat (length items) = n ->
    exists data w',
      regions_loop self en regions i items acc w = (Ok data, w') /\
      requests w'
      = requests w ++
        (if truthy en
         then (fun r => trending_params self (region_code_of r)) <$> items
         else []) /\
      slept w' = slept w + total_pause (truthy en) (Z.of_nat (length items)) /\
      files w' = files w.
Proof.
  intros Hn. induction items as [|r items IH]; intros i acc w Hok Hi.
  - exists acc, w. split_and!; try done.
    + destruct (truthy en); by rewrite app_nil_r.
    + unfold total_pause. simpl. destruct (truthy en); lia.
  - simpl in Hok. apply andb_prop in Hok as [Hr Hok].
    destruct r as [| | | | | |d]; try done. simpl in Hr.
    apply andb_prop in Hr as [Hname Hcode].
    apply dict_mem_true in Hname as [name Hname].
    apply dict_mem_true in Hcode as [code Hcode].
    simpl length in Hi.
    assert ((Z.of_nat i <? n - 1) = (0 <? Z.of_nat (length items))) as Hlast.
    { destruct (Z.ltb_spec (Z.of_nat i) (n - 1)), (Z.ltb_spec 0 (Z.of_nat (length items)));
        try done; lia. }
    destruct (truthy en) eqn:Hen.
    + destruct (collect_trending_searches_total self code name w)
        as (v & w1 & Hv & _).
      pose proof (collect_trending_searches_world self code name w) as Hw.
      rewrite Hv in Hw. simpl in Hw. destruct Hw as (Hreq & Hslept & Hfiles & _).
      set (w2 := if Z.of_nat i <? n - 1 then paused 3 (paused 2 w1) else paused 2 w1).
      destruct (IH (S i) (acc ++ [v]) w2 Hok ltac:(lia))
        as (data & w' & Hloop & Hreq' & Hslept' & Hfiles').
      exists data, w'. split_and!.
      * simpl. unfold bind at 1, lift. simpl. rewrite Hname.
        unfold bind at 1. simpl. rewrite Hcode.
        unfold bind at 1. rewrite Hen.
        unfold bind at 1. rewrite Hv.
        unfold bind at 1, time_sleep, ret.
        unfold bind at 1. rewrite Hn.
        unfold bind at 1. rewrite <- Hloop. unfold w2.
        by destruct (Z.of_nat i <? n - 1).
      * rewrite Hreq'. assert (requests w2 = requests w1) as ->.
        { unfold w2. by destruct (Z.of_nat i <? n - 1). }
        rewrite Hreq, <- app_assoc. simpl. unfold region_code_of. simpl.
        by rewrite Hcode.
      * rewrite Hslept'. unfold w2. rewrite Hlast. unfold total_pause.
        destruct (Z.ltb_spec 0 (Z.of_nat (length items))); simpl slept;
          rewrite Hslept; simpl length; lia.
      * rewrite Hfiles'. unfold w2. by destruct (Z.of_nat i <? n - 1).
    + set (w2 := if Z.of_nat i <? n - 1 then paused 3 w else w).
      destruct (IH (S i) acc w2 Hok ltac:(lia))
        as (data & w' & Hloop & Hreq' & Hslept' & Hfiles').
      exists data, w'. split_and!.
      * simpl. unfold bind at 1, lift. simpl. rewrite Hname.
        unfold bind at 1. simpl. rewrite Hcode.
        unfold bind at 1. rewrite Hen. unfold ret.
        unfold bind at 1. rewrite Hn.
        unfold bind at 1. rewrite <- Hloop. unfold w2, time_sleep.
        by destruct (Z.of_nat i <? n - 1).
      * rewrite Hreq'. unfold w2. by destruct (Z.of_nat i <? n - 1).
      * rewrite Hslept'. unfold w2. rewrite Hlast. unfold total_pause.
        destruct (Z.ltb_spec 0 (Z.of_nat (length items))); simpl slept;
          simpl length; lia.
      * rewrite Hfiles'. unfold w2. by destruct (Z.of_nat i <? n - 1).
Qed.

(** X10: with collection enabled a run over N regions sends N requests,
    one per region in the order of the configuration, each with that
    region's code, and spends 2 seconds after every request and 3 more
    between regions: 5N - 3 seconds in all, none for an empty list. *)
Theorem requests_and_pauses_of_a_run self cfg keywords rs en w :
  config self = PDict cfg ->
  dict_lookup "keywords" cfg = Some keywords ->
  dict_lookup "regions" cfg = Some (PList rs) ->
  forallb is_region rs = true ->
  configured_enabled self = Ok en ->
  truthy en = true ->
  exists run w',
    collect_all_trends self w = (Ok run, w') /\
    requests w'
    = requests w ++ ((fun r => trending_params self (region_code_of r)) <$> rs) /\
    slept w' - slept w
    = (if 0 <? Z.of_nat (length rs) then 5 * Z.of_nat (length rs) - 3 else 0) /\
    files w' = files w.
Proof.
  intros Hcfg Hkw Hrs Hok Hen Htrue.
  rewrite (collect_all_trends_eq _ _ _ _ _ _ Hcfg Hkw Hrs Hen).
  destruct (regions_loop_effects self en (PList rs) _ eq_refl rs 0%nat [] (tick w) Hok)
    as (data & w' & -> & Hreq & Hslept & Hfiles); [simpl; lia|].
  rewrite Htrue in Hreq, Hslept.
  eexists _, w'. split_and!; try done.
  rewrite Hslept. unfold total_pause. simpl slept.
  destruct (Z.ltb_spec 0 (Z.of_nat (length rs))); lia.
Qed.

(** X11: when the enabled flag is false or any other false value (0, an
    empty string, [None]), a run sends no request and collects nothing; it
    still walks the regions and sleeps 3 seconds between them. *)
Theorem disabled_run_requests_nothing self cfg keywords rs en w :
  config self = PDict cfg ->
  dict_lookup "keywords" cfg = Some keywords ->
  dict_lookup "regions" cfg = Some (PList rs) ->
  forallb is_region rs = true ->
  configured_enabled self = Ok en ->
  truthy en = false ->
  exists run w',
    collect_all_trends self w = (Ok run, w') /\
    field "trending_searches_data" run = Some (PList []) /\
    requests w' = requests w /\
    slept w' - slept w = 3 * Z.max (Z.of_nat (length rs) - 1) 0 /\
    files w' = files w.
Proof.
  intros Hcfg Hkw Hrs Hok Hen Hfalse.
  rewrite (collect_all_trends_eq _ _ _ _ _ _ Hcfg Hkw Hrs Hen).
  destruct (regions_loop_effects self en (PList rs) _ eq_refl rs 0%nat [] (tick w) Hok)
    as (data & w' & Hloop & Hreq & Hslept & Hfiles); [simpl; lia|].
  destruct (regions_loop_disabled self en (PList rs) _ Hfalse eq_refl rs 0%nat []
              (tick w) Hok) as (w'' & Hloop' & _).
  rewrite Hloop in Hloop'. injection Hloop' as -> <-. rewrite Hloop.
  rewrite Hfalse in Hreq, Hslept. rewrite app_nil_r in Hreq.
  eexists _, w'. split_and!; try done.
  rewrite Hslept. unfold total_pause. simpl slept. lia.
Qed.

End OrchestratorProperties.

(** ** The reduced projection and the files *)

(** X12: the category of an entry is "Unknown" when the record has no
    [categories], when [categories] is any false value, and when its first
    entry is a mapping without a [name]. *)
Theorem category_defaults_to_unknown d :
  (truthy (dict_get "categories" PNone d) = false \/
   exists c rest, dict_lookup "categories" d = Some (PList (PDict c :: rest)) /\
                  dict_lookup "name" c = None) ->
  trend_category (PDict d) = Ok (PStr "Unknown").
Proof.
  unfold trend_category. simpl.
  intros [Hf|(c & rest & Hc & Hn)].
  - by rewrite Hf.
  - unfold dict_get. rewrite Hc. simpl. unfold dict_get. by rewrite Hn.
Qed.

Lemma simple_query_bad_category d c rest :
  dict_lookup "categories" d = Some (PList (c :: rest)) ->
  is_dict c = false ->
  simple_query (PDict d) = Raise (no_attribute c "get").
Proof.
  intros Hc Hd. unfold simple_query, trend_category. simpl. unfold dict_get.
  rewrite Hc. simpl. by rewrite is_dict_false_get.
Qed.

(** X13: a trend record whose [categories] starts with something that is
    not a mapping makes the projection of the whole run raise
    [AttributeError], whatever the other regions and records are. *)
Theorem category_not_a_mapping_fails_projection
    run md pre rd post tpre t tpost c cs :
  dict_lookup "metadata" run = Some (PDict md) ->
  dict_lookup "trending_searches_data" run = Some (PList (pre ++ PDict rd :: post)) ->
  forallb is_region_result pre = true ->
  dict_lookup "trending_searches" rd = Some (PList (tpre ++ PDict t :: tpost)) ->
  forallb is_trend_record tpre = true ->
  dict_lookup "categories" t = Some (PList (c :: cs)) ->
  is_dict c = false ->
  create_simple_format (PDict run) = Raise (no_attribute c "get").
Proof.
  intros Hmd Hrs Hpre Hts Htpre Hc Hd.
  unfold create_simple_format. simpl. unfold dict_get at 1. rewrite Hmd. simpl.
  unfold dict_get at 1. rewrite Hrs. simpl. unfold simple_regions_loop.
  rewrite (append_each_raise _ _ _ _ _ (no_attribute c "get")); [done| |].
  - apply Forall_forall. intros r Hin.
    destruct (simple_region_ok r) as (e & He & _); [|by exists e].
    rewrite forallb_forall in Hpre. apply Hpre. by apply list_elem_of_In.
  - unfold simple_region. simpl. unfold dict_get at 1. rewrite Hts. simpl.
    unfold queries_loop.
    rewrite (append_each_raise _ _ _ _ _ (no_attribute c "get")); [done| |].
    + apply Forall_forall. intros x Hin.
      destruct (simple_query_ok x) as (q & Hq & _); [|by exists q].
      rewrite forallb_forall in Htpre. apply Htpre. by apply list_elem_of_In.
    + by apply (simple_query_bad_category t c cs).
Qed.

Lemma replace_from_absent old new s :
  str_contains old s = false -> replace_from old new 0 s = s.
Proof.
  induction s as [|c s IH]; [done|].
  cbn [str_contains replace_from]. intros [Hp Hc]%orb_false_elim.
  rewrite Hp. by rewrite IH.
Qed.

Lemma str_replace_absent old new s :
  str_contains old s = false -> str_replace old new s = s.
Proof.
  intros Hc. unfold str_replace. destruct old as [|a old].
  - by destruct s.
  - by apply replace_from_absent.
Qed.

Section FileProperties.

Context {services : Services}.

(** [save_to_json] on a named path, step by step. *)
Lemma save_to_json_eq self cfg data filename path w :
  config self = PDict cfg ->
  output_path cfg filename = PStr path ->
  save_to_json self data filename w =
  match refused path with
  | Some e => (Raise e, w)
  | None =>
      match create_simple_format data with
      | Ok simple =>
          match refused (str_replace ".json" "_simple.json" path) with
          | Some e => (Raise e, written path data w)
          | None =>
              (Ok tt, written (str_replace ".json" "_simple.json" path) simple
                        (written path data w))
          end
      | Raise e => (Raise e, written path data w)
      | Unmodelled => (Unmodelled, written path data w)
      end
  end.
Proof.
  intros Hcfg Hpath. unfold save_to_json.
  assert ((match filename with
           | PNone => lift (py_get (config self) "output_file" (PStr "trends_data.json"))
           | _ => ret filename
           end) w = (Ok (PStr path), w)) as Hchosen.
  { rewrite Hcfg. unfold output_path in Hpath.
    destruct filename; simpl in *; unfold ret, lift; by rewrite ?Hpath. }
  rewrite (bind_ok _ _ _ _ _ Hchosen).
  unfold bind, lift, json_dump.
  destruct (refused path) as [e|]; [done|].
  destruct (create_simple_format data) as [simple|e|]; try done.
  cbn [py_replace].
  by destruct (refused (str_replace ".json" "_simple.json" path)).
Qed.

(** X14: the run is written before its projection is computed: when the
    projection raises, or the path of the reduced file is refused, the
    error goes to the caller and the full file stays written. *)
Theorem full_file_is_written_first self cfg data filename path e w :
  config self = PDict cfg ->
  output_path cfg filename = PStr path ->
  refused path = None ->
  (create_simple_format data = Raise e \/
   exists simple,
     create_simple_format data = Ok simple /\
     refused (str_replace ".json" "_simple.json" path) = Some e) ->
  save_to_json self data filename w = (Raise e, written path data w).
Proof.
  intros Hcfg Hpath Hfull H.
  rewrite (save_to_json_eq _ _ _ _ _ _ Hcfg Hpath), Hfull.
  by destruct H as [->|(simple & -> & ->)].
Qed.

(** X15: when the path of the run is refused, nothing is written and the
    reduced file is not attempted. *)
Theorem refused_path_writes_nothing self cfg data filename path e w :
  config self = PDict cfg ->
  output_path cfg filename = PStr path ->
  refused path = Some e ->
  save_to_json self data filename w = (Raise e, w).
Proof.
  intros Hcfg Hpath Hfull.
  by rewrite (save_to_json_eq _ _ _ _ _ _ Hcfg Hpath), Hfull.
Qed.

(** X16: for a path that ends in ".json" and has no other ".json", the run
    is in the file of that path and its projection in the file with
    "_simple" before the extension; no other file is touched, no request is
    sent. *)
Theorem both_files_written self cfg data simple filename stem w :
  config self = PDict cfg ->
  output_path cfg filename = PStr (stem +:+ ".json") ->
  str_contains ".json" stem = false ->
  refused (stem +:+ ".json") = None ->
  refused (stem +:+ "_simple.json") = None ->
  create_simple_format data = Ok simple ->
  exists w',
    save_to_json self data filename w = (Ok tt, w') /\
    files w' !! (stem +:+ ".json") = Some data /\
    files w' !! (stem +:+ "_simple.json") = Some simple /\
    (forall other, other <> stem +:+ ".json" -> other <> stem +:+ "_simple.json" ->
                   files w' !! other = files w !! other) /\
    requests w' = requests w.
Proof.
  intros Hcfg Hpath Hstem Hfull Hsimple Hfmt.
  rewrite (save_to_json_eq _ _ _ _ _ _ Hcfg Hpath), Hfull, Hfmt.
  unfold str_replace. rewrite (replace_json_suffix _ Hstem), Hsimple.
  eexists. split; [done|]. simpl. split_and!.
  - rewrite lookup_insert_ne; [by rewrite lookup_insert_eq|].
    intros H. by apply append_inj_l in H.
  - by rewrite lookup_insert_eq.
  - intros other H1 H2. by rewrite !lookup_insert_ne.
  - done.
Qed.

(** X17: for a path in which ".json" does not occur, the reduced file gets
    the very path of the run: the projection is written over the run, which
    is lost. *)
Theorem path_without_json_loses_the_run self cfg data simple filename path w :
  config self = PDict cfg ->
  output_path cfg filename = PStr path ->
  str_contains ".json" path = false ->
  refused path = None ->
  create_simple_format data = Ok simple ->
  exists w',
    save_to_json self data filename w = (Ok tt, w') /\
    files w' !! path = Some simple /\
    (forall other, other <> path -> files w' !! other = files w !! other).
Proof.
  intros Hcfg Hpath Habsent Hfull Hfmt.
  rewrite (save_to_json_eq _ _ _ _ _ _ Hcfg Hpath), Hfull, Hfmt.
  rewrite (str_replace_absent _ _ _ Habsent), Hfull.
  eexists. split; [done|]. simpl. split.
  - by rewrite lookup_insert_eq.
  - intros other H. by rewrite !lookup_insert_ne.
Qed.

End FileProperties.

(** ** A whole run *)

Lemma forallb_take {A} (f : A -> bool) n (l : list A) :
  forallb f l = true -> forallb f (take n l) = true.
Proof.
  revert n. induction l as [|x l IH]; intros [|n]; simpl; try done.
  intros [-> H]%andb_prop. simpl. by apply IH.
Qed.

Lemma forallb_take_upto {A} (f : A -> bool) stop (l : list A) :
  forallb f l = true -> forallb f (take_upto stop l) = true.
Proof.
  intros H. destruct stop as [z|]; simpl; [|done].
  destruct (0 <=? z); by apply forallb_take.
Qed.

(** The record of a mapping item is a trend record when the item's
    categories are usable. *)
Lemma trend_record_ok d :
  is_trend_record (PDict d) = true -> is_trend_record (PDict (trend_record d)) = true.
Proof.
  unfold is_trend_record.
  rewrite (trend_record_fields d "categories" "categories" (PList [])).
  - unfold dict_get. by destruct (dict_lookup "categories" d).
  - unfold trend_fields. rewrite !elem_of_cons. tauto.
Qed.

Lemma trends_loop_records items out recs :
  append_each trend_data items out = Ok recs ->
  forallb item_ok items = true ->
  forallb is_trend_record out = true ->
  forallb is_trend_record recs = true.
Proof.
  revert out. induction items as [|x items IH]; intros out; simpl.
  - by intros [= <-].
  - intros Hloop [Hx Hitems]%andb_prop Hout.
    destruct x as [| | | | | |d]; try done.
    rewrite trend_data_dict in Hloop. simpl in Hloop.
    apply (IH _ Hloop Hitems). rewrite forallb_app, Hout. simpl.
    by rewrite andb_true_r; apply trend_record_ok.
Qed.

Lemma trends_loop_chars s out recs :
  append_each trend_data (chars s) out = Ok recs -> recs = out.
Proof. destruct s; simpl; [by intros [= <-] | done]. Qed.

Lemma trending_found_region_result self results trending_data v :
  results_ok results = true ->
  trending_found self results trending_data = Ok v ->
  is_region_result v = true.
Proof.
  unfold results_ok, trending_found. intros Hok.
  destruct (configured_count self) as [count| |]; cbn [obind]; try done.
  cbn [py_getitem].
  destruct (dict_lookup "trending_searches" results) as [found|]; cbn [obind]; [|done].
  assert (forall items recs,
             trends_loop items [] = Ok recs ->
             forallb is_trend_record recs = true ->
             is_region_result
               (PDict (dict_set "trending_searches" (PList recs) trending_data)) = true)
    as Hset.
  { intros items recs _ Hrecs. simpl. by rewrite dict_lookup_set_eq. }
  destruct found as [| | | |s|l|]; cbn [py_slice_to obind]; try done.
  - destruct (slice_stop count) as [stop| |]; cbn [obind py_iter]; try done.
    destruct (trends_loop _ _) as [recs| |] eqn:Hloop; cbn [obind]; try done.
    intros [= <-]. apply (Hset _ _ Hloop).
    by rewrite (trends_loop_chars _ _ _ Hloop).
  - destruct (slice_stop count) as [stop| |]; cbn [obind py_iter]; try done.
    destruct (trends_loop _ _) as [recs| |] eqn:Hloop; cbn [obind]; try done.
    intros [= <-]. apply (Hset _ _ Hloop).
    apply (trends_loop_records _ _ _ Hloop); [|done].
    by apply forallb_take_upto.
Qed.

(** The projection of a run with a metadata mapping and well-formed
    results succeeds. *)
Lemma create_simple_format_ok md data :
  forallb is_region_result data = true ->
  exists simple,
    create_simple_format (PDict (collection_run (PDict md) data)) = Ok simple.
Proof.
  intros Hok.
  destruct (append_each_ok projects_region simple_region data []) as (es & Hes & _).
  { apply Forall_forall. intros r Hin. apply simple_region_ok.
    rewrite forallb_forall in Hok. apply Hok. by apply list_elem_of_In. }
  unfold create_simple_format. simpl. unfold simple_regions_loop. rewrite Hes.
  by eexists.
Qed.

Section RunProperties.

Context {services : Services}.

(** Construction, by its three steps. *)
Lemma TrendsCollector_new_eq cfg w :
  TrendsCollector_new (Ok cfg) w =
  match TrendsCollector_init cfg with
  | Ok self =>
      match refused "trends_collector.log" with
      | Some e => (Raise e, w)
      | None => (Ok self, w)
      end
  | Raise e => (Raise e, w)
  | Unmodelled => (Unmodelled, w)
  end.
Proof.
  unfold TrendsCollector_new, setup_logging, bind, lift, ret.
  destruct (TrendsCollector_init cfg); try done.
  by destruct (refused "trends_collector.log").
Qed.

(** [main], by what construction and the run give. *)
Lemma main_eq loaded w :
  main loaded w =
  match TrendsCollector_new loaded w with
  | (Ok self, w1) =>
      match run self w1 with
      | (Ok _, w2) => (Ok (Returned, success_message), w2)
      | (Raise e, w2) => (Ok (Exited 1, "Błąd: " +:+ exc_str e), w2)
      | (Unmodelled, w2) => (Unmodelled, w2)
      end
  | (Raise e, w1) => (Ok (Exited 1, "Błąd: " +:+ exc_str e), w1)
  | (Unmodelled, w1) => (Unmodelled, w1)
  end.
Proof.
  unfold main, try_except. unfold bind at 1.
  destruct (TrendsCollector_new loaded w) as [[self|e|] w1]; try done.
  unfold bind, ret. by destruct (run self w1) as [[data|e|] w2].
Qed.

Lemma collect_trending_searches_region_result self code name w v w' :
  (forall n params results,
      client n params = Response results -> results_ok results = true) ->
  collect_trending_searches self code name w = (Ok v, w') ->
  is_region_result v = true.
Proof.
  intros Hclient.
  rewrite collect_trending_searches_eq, collect_trending_searches_try_eq. simpl.
  destruct (client _ _) as [results|e] eqn:Hc; [|by intros [= <- _]].
  destruct (dict_mem _ results).
  - destruct (trending_found _ _ _) as [v0|e|] eqn:Hf; try done.
    + intros [= <- _]. by eapply trending_found_region_result; eauto.
    + by intros [= <- _].
  - intros [= <- _]. unfold trending_missing.
    by destruct (dict_lookup "error" results).
Qed.

(** X18: a run on a complete configuration ends well whether the client
    answers or fails, and whatever the items of an answer are within the
    value universe, provided the categories of the mapping items are
    sequences of mappings and the two files can be opened: it returns the
    run, has written it and its projection, and has sent one request per
    region when collection is enabled, none otherwise; when the log file
    can be opened too, [main] prints the success line and returns. *)
Theorem run_completes self cfg keywords rs en stem w :
  TrendsCollector_init (PDict cfg) = Ok self ->
  dict_lookup "keywords" cfg = Some keywords ->
  dict_lookup "regions" cfg = Some (PList rs) ->
  forallb is_region rs = true ->
  configured_enabled self = Ok en ->
  (forall n params results,
      client n params = Response results -> results_ok results = true) ->
  output_path cfg PNone = PStr (stem +:+ ".json") ->
  str_contains ".json" stem = false ->
  refused (stem +:+ ".json") = None ->
  refused (stem +:+ "_simple.json") = None ->
  refused "trends_collector.log" = None ->
  exists data simple w',
    run self w = (Ok data, w') /\
    create_simple_format data = Ok simple /\
    files w' !! (stem +:+ ".json") = Some data /\
    files w' !! (stem +:+ "_simple.json") = Some simple /\
    length (requests w')
    = (length (requests w) + if truthy en then length rs else 0)%nat /\
    main (Ok (PDict cfg)) w
    = (Ok (Returned, "Program zakończył się pomyślnie. Sprawdź plik z danymi i logi."),
       w').
Proof.
  intros Hinit Hkw Hrs Hok Hen Hclient Hpath Hstem Hfull Hsimple Hlog.
  assert (config self = PDict cfg) as Hcfg.
  { apply TrendsCollector_init_ok in Hinit as (cfg' & key & [= <-] & _ & _ & ->).
    done. }
  destruct (regions_loop_effects self en (PList rs) _ eq_refl rs 0%nat [] (tick w) Hok)
    as (data & w1 & Hloop & Hreq & _ & Hfiles); [simpl; lia|].
  assert (forallb is_region_result data = true) as Hdata.
  { destruct (truthy en) eqn:Htrue.
    - destruct (regions_loop_enabled self en (PList rs) _ Htrue eq_refl rs 0%nat []
                  (tick w) Hok) as (data' & w1' & Hloop' & Hlen & Hdata).
      rewrite Hloop in Hloop'. injection Hloop' as -> <-.
      apply forallb_forall. intros v [j Hj]%list_elem_of_In%list_elem_of_lookup.
      destruct (lookup_lt_is_Some_2 rs j) as [r Hr].
      { rewrite <- Hlen. by eapply lookup_lt_Some. }
      destruct (Hdata j r Hr) as (c & nm & wj & wj' & v' & _ & _ & _ & Hv & Hj').
      rewrite Hj in Hj'. injection Hj' as <-.
      by eapply collect_trending_searches_region_result.
    - destruct (regions_loop_disabled self en (PList rs) _ Htrue eq_refl rs 0%nat []
                  (tick w) Hok) as (w1' & Hloop' & _).
      rewrite Hloop in Hloop'. by injection Hloop' as -> <-. }
  set (md := [("collection_time", now w); ("keywords", keywords);
              ("total_regions", PInt (Z.of_nat (length rs)));
              ("timeframe", dict_get "timeframe" (PStr "today 3-m") cfg);
              ("trending_searches_enabled", en); ("source", source_name);
              ("api_usage_note", PStr "Each request uses your SerpAPI quota")]).
  set (run_data := PDict (collection_run (PDict md) data)).
  assert (collect_all_trends self w = (Ok run_data, w1)) as Hall.
  { by rewrite (collect_all_trends_eq _ _ _ _ _ _ Hcfg Hkw Hrs Hen), Hloop. }
  destruct (create_simple_format_ok md data Hdata) as [simple Hfmt].
  change (create_simple_format run_data = Ok simple) in Hfmt.
  set (w' := written (stem +:+ "_simple.json") simple
               (written (stem +:+ ".json") run_data w1)).
  assert (save_to_json self run_data PNone w1 = (Ok tt, w')) as Hsave.
  { rewrite (save_to_json_eq _ _ _ _ _ _ Hcfg Hpath), Hfull, Hfmt.
    unfold str_replace. by rewrite (replace_json_suffix _ Hstem), Hsimple. }
  assert (files w' !! (stem +:+ ".json") = Some run_data) as Hf1.
  { simpl. rewrite lookup_insert_ne; [by rewrite lookup_insert_eq|].
    intros H. by apply append_inj_l in H. }
  assert (files w' !! (stem +:+ "_simple.json") = Some simple) as Hf2.
  { simpl. by rewrite lookup_insert_eq. }
  assert (requests w' = requests w1) as Hreq' by done.
  assert (run self w = (Ok run_data, w')) as Hrun.
  { unfold run. rewrite (bind_ok _ _ _ _ _ Hall), (bind_ok _ _ _ _ _ Hsave).
    unfold bind, lift. rewrite Hcfg. simpl. unfold dict_get. by rewrite Hrs. }
  exists run_data, simple, w'. split_and!; try done.
  - rewrite Hreq', Hreq, length_app. simpl.
    destruct (truthy en); [by rewrite length_fmap | simpl; lia].
  - by rewrite main_eq, TrendsCollector_new_eq, Hinit, Hlog, Hrun.
Qed.

(** X19: [main] on a configuration without keywords prints one line and
    exits with status 1; no request is sent and no output file is written.
    The line is the fixed message when the key of the service is missing
    or empty; with a key, it is the error of opening the log file when
    that fails, and otherwise the bare quoted name ['keywords']. *)
Theorem main_on_incomplete_config cfg w :
  dict_lookup "keywords" cfg = None ->
  main (Ok (PDict cfg)) w
  = (Ok (Exited 1,
         "Błąd: " +:+
         (if truthy (dict_get "serpapi_key" PNone cfg)
          then match refused "trends_collector.log" with
               | Some e => exc_str e
               | None => "'keywords'"
               end
          else "Brak serpapi_key w pliku konfiguracyjnym!")),
     w).
Proof.
  intros Hkw. rewrite main_eq, TrendsCollector_new_eq.
  unfold TrendsCollector_init. simpl.
  destruct (truthy (dict_get "serpapi_key" PNone cfg)); [|done].
  destruct (refused "trends_collector.log") as [e|]; [done|].
  unfold run, collect_all_trends, bind, lift, ret. simpl. by rewrite Hkw.
Qed.

End RunProperties.

(** ** More on interest over time *)

Lemma join_loop_concat sep i kws :
  join_loop sep i (PStr <$> kws) = Ok (String.concat sep kws).
Proof.
  revert i. induction kws as [|k kws IH]; intros i; [done|].
  cbn [fmap list_fmap join_loop]. destruct kws as [|k' kws]; [done|].
  specialize (IH (S i)). cbn [fmap list_fmap] in *. by rewrite IH.
Qed.

Lemma join_loop_not_a_string sep pre bad rest i :
  (forall s, bad <> PStr s) ->
  join_loop sep i ((PStr <$> pre) ++ bad :: rest)
  = Raise (Exn TypeError
             ("sequence item " +:+ pretty (i + length pre)%nat
              +:+ ": expected str instance, " +:+ type_name bad +:+ " found")).
Proof.
  intros Hbad. revert i. induction pre as [|k pre IH]; intros i.
  - simpl. rewrite Nat.add_0_r. destruct bad; try done. by destruct (Hbad s).
  - cbn [fmap list_fmap app join_loop length].
    specialize (IH (S i)). rewrite Nat.add_succ_r.
    destruct ((PStr <$> pre) ++ bad :: rest) eqn:Hl; [by destruct pre|].
    by rewrite IH.
Qed.

(** The table of codes maps every code to itself. *)
Lemma geo_mapping_get_string c : geo_mapping_get (PStr c) = Ok (PStr c).
Proof.
  unfold geo_mapping_get, dict_get, geo_mapping. cbn [dict_lookup].
  repeat (match goal with
          | |- context [String.eqb c ?k] =>
              destruct (String.eqb_spec c k) as [->|_]; [done|]
          end).
  done.
Qed.

Lemma timeline_fold_other kws (points : list (string * list dict)) interest date :
  Forall (fun p => p.1 <> date) points ->
  dict_lookup date
    (fold_left (fun interest p =>
                  if negb (String.eqb p.1 "") && match p.2 with [] => false | _ => true end
                  then dict_set p.1 (PDict (zip_row kws p.2)) interest
                  else interest)
               points interest)
  = dict_lookup date interest.
Proof.
  intros H. revert interest. induction H as [|p points Hp _ IH]; intros interest; [done|].
  cbn [fold_left]. rewrite IH.
  destruct (negb (String.eqb p.1 "") && _); [|done].
  by apply dict_lookup_set_ne.
Qed.

Section MoreInterestProperties.

Context {services : Services}.

(** X20: a keyword that is not a string makes [",".join] raise
    [TypeError] naming its position and type; this is before the request is
    built, so none is sent, and the region gets the failure record. *)
Theorem keyword_not_a_string_sends_nothing self pre bad rest code name w :
  (forall s, bad <> PStr s) ->
  collect_interest_over_time self (PList ((PStr <$> pre) ++ bad :: rest))
    (PStr code) name w
  = (Ok (failure_record (PStr code) name
           (Exn TypeError
              ("sequence item " +:+ pretty (length pre)
               +:+ ": expected str instance, " +:+ type_name bad +:+ " found"))
           (now w)),
     tick w).
Proof.
  intros Hbad.
  unfold collect_interest_over_time, try_except, collect_interest_over_time_try.
  unfold bind at 1, lift. rewrite geo_mapping_get_string.
  unfold bind at 1, py_join. cbn [py_iter obind].
  by rewrite (join_loop_not_a_string "," pre bad rest 0 Hbad).
Qed.

(** X21: for keywords that are strings, one request is sent whatever
    comes of it: the engine of interest over time, the keywords joined
    with commas, the code of the region unchanged as [geo] (the table of
    five codes maps each to itself), and the configured timeframe, or
    "today 3-m", as [date]. *)
Theorem interest_request self cfg kws code name w :
  config self = PDict cfg ->
  requests (collect_interest_over_time self (PList (PStr <$> kws)) (PStr code) name w).2
  = requests w ++
    [interest_params self (PStr (String.concat "," kws)) (PStr code)
       (dict_get "timeframe" (PStr "today 3-m") cfg)].
Proof.
  intros Hcfg.
  unfold collect_interest_over_time, try_except, collect_interest_over_time_try.
  unfold bind at 1, lift. rewrite geo_mapping_get_string.
  unfold bind at 1, py_join. cbn [py_iter obind]. rewrite join_loop_concat.
  cbn [obind]. unfold bind at 1. rewrite Hcfg. cbn [py_get].
  unfold bind at 1, get_dict.
  destruct (client _ _) as [results|e]; [|done].
  unfold bind at 1, datetime_now_isoformat.
  unfold bind at 1.
  by destruct (_ <~ interest_section results _ ;; _)%py.
Qed.

(** X22: when a date comes more than once in the timeline, the row of
    its last data point replaces the earlier ones. *)
Theorem last_point_of_a_date_wins kws results interest pre pt post
    points_pre date values points_post :
  dict_lookup "interest_over_time" results = Some (PDict interest) ->
  dict_get "timeline_data" (PList []) interest = PList (pre ++ pt :: post) ->
  Forall2 is_point pre points_pre ->
  is_point pt (date, values) ->
  Forall2 is_point post points_post ->
  date <> "" ->
  values <> [] ->
  Forall (fun p => p.1 <> date) points_post ->
  exists out,
    interest_section results (PList (PStr <$> kws)) = Ok out /\
    dict_lookup date out = Some (PDict (zip_row kws values)).
Proof.
  intros Hint Htl Hpre Hpt Hpost Hdate Hvalues Hother.
  unfold interest_section. rewrite Hint. cbn [py_get obind]. rewrite Htl.
  cbn [py_iter obind].
  rewrite (timeline_loop_zip kws _ (points_pre ++ (date, values) :: points_post)).
  2: { apply Forall2_app; [done|]. by constructor. }
  eexists. split; [done|].
  rewrite fold_left_app. cbn [fold_left fst snd].
  rewrite timeline_fold_other by done.
  apply String.eqb_neq in Hdate. rewrite Hdate.
  destruct values; [done|]. simpl. apply dict_lookup_set_eq.
Qed.

End MoreInterestProperties.

(** ** The further properties on the sample documents *)

Lemma null_count_keeps_everything_sample :
  exists v w',
    collect_trending_searches (services := answering sample_results)
      (collector_with_count PNone) (PStr "PL") (PStr "Poland") sample_world
      = (Ok v, w') /\
    field "trending_searches" v
      = Some (PList (PDict <$> (trend_record <$> sample_items))).
Proof.
  apply (null_count_keeps_everything (services := answering sample_results)
           (collector_with_count PNone) (PStr "PL") (PStr "Poland") sample_world
           sample_results sample_items); reflexivity.
Defined.

Lemma negative_count_drops_from_the_end_sample :
  -2 < 0 /\
  exists v w' recs,
    collect_trending_searches (services := answering sample_results)
      (sample_collector (-2)) (PStr "PL") (PStr "Poland") sample_world = (Ok v, w') /\
    field "trending_searches" v = Some (PList (PDict <$> recs)) /\
    Z.of_nat (length recs) = Z.max (Z.of_nat (length sample_items) + -2) 0 /\
    forall i rec, recs !! i = Some rec ->
      exists item, sample_items !! i = Some item /\ rec = trend_record item.
Proof.
  split; [lia|].
  apply (negative_count_drops_from_the_end (services := answering sample_results)
           (sample_collector (-2)) (PStr "PL") (PStr "Poland") sample_world
           sample_results sample_items (-2)); [reflexivity | reflexivity | lia | reflexivity].
Defined.

Lemma unusable_count_fails_the_region_sample :
  exists t w',
    collect_trending_searches (services := answering sample_results)
      (collector_with_count (PStr "ten")) (PStr "PL") (PStr "Poland") sample_world
      = (Ok (failure_record (PStr "PL") (PStr "Poland")
               (Exn TypeError
                  "slice indices must be integers or None or have an __index__ method")
               t), w').
Proof.
  destruct (unusable_count_fails_the_region (services := answering sample_results)
              (collector_with_count (PStr "ten")) (PStr "PL") (PStr "Poland")
              sample_world sample_results (PDict <$> sample_items) (PStr "ten")
              (Exn TypeError
                 "slice indices must be integers or None or have an __index__ method")
              eq_refl eq_refl eq_refl eq_refl) as (t & w' & H & _).
  by exists t, w'.
Defined.

Lemma item_without_get_fails_the_region_sample :
  exists t w',
    collect_trending_searches (services := answering sample_mixed_results)
      (sample_collector 5) (PStr "PL") (PStr "Poland") sample_world
      = (Ok (failure_record (PStr "PL") (PStr "Poland")
               (Exn AttributeError "'str' object has no attribute 'get'") t), w').
Proof.
  apply (item_without_get_fails_the_region (services := answering sample_mixed_results)
           (sample_collector 5) (PStr "PL") (PStr "Poland") sample_world
           sample_mixed_results sample_items (PStr "d") [PInt 5] 5);
    [reflexivity | reflexivity | simpl; lia | reflexivity | reflexivity].
Defined.

Lemma items_beyond_count_ignored_sample :
  exists v w',
    collect_trending_searches (services := answering sample_mixed_results)
      (sample_collector 2) (PStr "PL") (PStr "Poland") sample_world = (Ok v, w') /\
    field "trending_searches" v
      = Some (PList (PDict <$> (trend_record <$> take 2 sample_items))).
Proof.
  apply (items_beyond_count_ignored (services := answering sample_mixed_results)
           (sample_collector 2) (PStr "PL") (PStr "Poland") sample_world
           sample_mixed_results sample_items [PStr "d"; PInt 5] 2);
    [reflexivity | reflexivity | simpl; lia | reflexivity].
Defined.

Lemma settings_must_be_a_mapping_sample :
  collect_all_trends (services := answering sample_results)
    (collector_of [poland; germany] (PBool true)) sample_world
  = (Raise (Exn AttributeError "'bool' object has no attribute 'get'"), sample_world).
Proof.
  apply (settings_must_be_a_mapping (services := answering sample_results)
           (collector_of [poland; germany] (PBool true))
           (config_of [poland; germany] (PBool true))
           (PList [PStr "python"]) (PList [poland; germany]) (PBool true));
    reflexivity.
Defined.

Lemma malformed_region_aborts_run_sample :
  exists w',
    collect_all_trends (services := answering sample_results)
      (collector_of [poland; PDict nowhere; germany] (PDict [("enabled", PBool true)]))
      sample_world
      = (Raise (Exn KeyError "'code'"), w') /\
    length (requests w') = 1%nat.
Proof.
  apply (malformed_region_aborts_run (services := answering sample_results)
           (collector_of [poland; PDict nowhere; germany] (PDict [("enabled", PBool true)]))
           (config_of [poland; PDict nowhere; germany] (PDict [("enabled", PBool true)]))
           (PList [PStr "python"]) [poland] nowhere [germany] (PBool true)
           sample_world); reflexivity.
Defined.

Lemma requests_and_pauses_of_a_run_sample :
  exists run w',
    collect_all_trends (services := answering sample_results)
      (sample_collector 2) sample_world = (Ok run, w') /\
    requests w'
      = [trending_params (sample_collector 2) (PStr "PL");
         trending_params (sample_collector 2) (PStr "DE")] /\
    slept w' - 0 = 7 /\
    files w' = ∅.
Proof.
  apply (requests_and_pauses_of_a_run (services := answering sample_results)
           (sample_collector 2) (sample_config 2) (PList [PStr "python"])
           [poland; germany] (PBool true) sample_world); reflexivity.
Defined.

Lemma disabled_run_requests_nothing_sample :
  exists run w',
    collect_all_trends (services := answering sample_results)
      (collector_of [poland; germany] (PDict [("enabled", PInt 0)])) sample_world
      = (Ok run, w') /\
    field "trending_searches_data" run = Some (PList []) /\
    requests w' = [] /\
    slept w' - 0 = 3 /\
    files w' = ∅.
Proof.
  apply (disabled_run_requests_nothing (services := answering sample_results)
           (collector_of [poland; germany] (PDict [("enabled", PInt 0)]))
           (config_of [poland; germany] (PDict [("enabled", PInt 0)]))
           (PList [PStr "python"]) [poland; germany] (PInt 0) sample_world);
    reflexivity.
Defined.

Lemma category_defaults_to_unknown_sample :
  trend_category (PDict [("query", PStr "a"); ("categories", PList [PDict [("id", PInt 3)]])])
  = Ok (PStr "Unknown").
Proof.
  apply category_defaults_to_unknown. right.
  exists [("id", PInt 3)], []. by split.
Defined.

Lemma category_not_a_mapping_fails_projection_sample :
  create_simple_format (PDict sample_bad_category_run)
  = Raise (Exn AttributeError "'str' object has no attribute 'get'").
Proof.
  exact (category_not_a_mapping_fails_projection sample_bad_category_run _ [] _ []
           [PDict sample_trend] [("query", PStr "b"); ("categories", PList [PStr "News"])]
           [] (PStr "News") []
           eq_refl eq_refl eq_refl eq_refl eq_refl eq_refl eq_refl).
Defined.

Lemma full_file_is_written_first_sample :
  save_to_json (services := answering sample_results) (sample_collector 2)
    (PDict sample_bad_category_run) (PStr "out/run.json") sample_world
  = (Raise (Exn AttributeError "'str' object has no attribute 'get'"),
     written "out/run.json" (PDict sample_bad_category_run) sample_world).
Proof.
  apply (full_file_is_written_first (services := answering sample_results)
           (sample_collector 2) (sample_config 2)); try reflexivity.
  left. reflexivity.
Defined.

Lemma refused_path_writes_nothing_sample :
  save_to_json (services := refusing "trends_data.json") (sample_collector 2)
    (PDict sample_run) PNone sample_world
  = (Raise (Exn OSError "Permission denied"), sample_world).
Proof.
  apply (refused_path_writes_nothing (services := refusing "trends_data.json")
           (sample_collector 2) (sample_config 2) (PDict sample_run) PNone
           "trends_data.json"); reflexivity.
Defined.

Lemma both_files_written_sample :
  exists simple w',
    create_simple_format (PDict sample_run) = Ok simple /\
    save_to_json (services := answering sample_results) (sample_collector 2)
      (PDict sample_run) (PStr "out/trends_data.json") sample_world = (Ok tt, w') /\
    files w' !! "out/trends_data.json" = Some (PDict sample_run) /\
    files w' !! "out/trends_data_simple.json" = Some simple.
Proof.
  eexists. 
  destruct (both_files_written (services := answering sample_results)
              (sample_collector 2) (sample_config 2) (PDict sample_run) _
              (PStr "out/trends_data.json") "out/trends_data" sample_world
              eq_refl eq_refl eq_refl eq_refl eq_refl eq_refl)
    as (w' & H1 & H2 & H3 & _).
  exists w'. by split_and!.
Defined.

Lemma path_without_json_loses_the_run_sample :
  exists simple w',
    create_simple_format (PDict sample_run) = Ok simple /\
    save_to_json (services := answering sample_results) (sample_collector 2)
      (PDict sample_run) (PStr "out/trends.txt") sample_world = (Ok tt, w') /\
    files w' !! "out/trends.txt" = Some simple.
Proof.
  eexists.
  destruct (path_without_json_loses_the_run (services := answering sample_results)
              (sample_collector 2) (sample_config 2) (PDict sample_run) _
              (PStr "out/trends.txt") "out/trends.txt" sample_world
              eq_refl eq_refl eq_refl eq_refl eq_refl)
    as (w' & H1 & H2 & _).
  exists w'. by split_and!.
Defined.

Lemma run_completes_sample :
  exists data simple w',
    run (services := failing_second) (sample_collector 2) sample_world = (Ok data, w') /\
    create_simple_format data = Ok simple /\
    files w' !! "trends_data.json" = Some data /\
    files w' !! "trends_data_simple.json" = Some simple /\
    length (requests w') = 2%nat /\
    main (services := failing_second) (Ok (PDict (sample_config 2))) sample_world
      = (Ok (Returned, success_message), w').
Proof.
  apply (run_completes (services := failing_second) (sample_collector 2)
           (sample_config 2) (PList [PStr "python"]) [poland; germany] (PBool true)
           "trends_data" sample_world); try reflexivity.
  intros [|[|n]] params results [= <-]; reflexivity.
Defined.

Lemma main_on_incomplete_config_sample :
  main (services := answering sample_results) (Ok (PDict config_without_keywords))
    sample_world
  = (Ok (Exited 1, "Błąd: 'keywords'"), sample_world).
Proof.
  apply (main_on_incomplete_config (services := answering sample_results)
           config_without_keywords sample_world). reflexivity.
Defined.

Lemma keyword_not_a_string_sends_nothing_sample :
  collect_interest_over_time (services := answering sample_interest_results)
    (sample_collector 2) (PList [PStr "python"; PInt 2024]) (PStr "PL") (PStr "Poland")
    sample_world
  = (Ok (failure_record (PStr "PL") (PStr "Poland")
           (Exn TypeError "sequence item 1: expected str instance, int found")
           (PStr (sample_isoformat 0))),
     tick sample_world).
Proof.
  apply (keyword_not_a_string_sends_nothing (services := answering sample_interest_results)
           (sample_collector 2) ["python"] (PInt 2024) [] "PL" (PStr "Poland")
           sample_world).
  intros s. discriminate.
Defined.

Lemma interest_request_sample :
  requests (collect_interest_over_time (services := answering sample_interest_results)
              (sample_collector 2) (PList (PStr <$> ["python"; "rust"])) (PStr "PL")
              (PStr "Poland") sample_world).2
  = [PDict [("api_key", PStr "secret");
            ("engine", PStr "google_trends");
            ("q", PStr "python,rust");
            ("geo", PStr "PL");
            ("date", PStr "today 3-m")]].
Proof.
  apply (interest_request (services := answering sample_interest_results)
           (sample_collector 2) (sample_config 2) ["python"; "rust"] "PL"
           (PStr "Poland") sample_world). reflexivity.
Defined.

Lemma last_point_of_a_date_wins_sample :
  exists out,
    interest_section sample_repeated_results (PList (PStr <$> ["python"])) = Ok out /\
    dict_lookup "May 1" out = Some (PDict [("python", PInt 90)]).
Proof.
  apply (last_point_of_a_date_wins ["python"] sample_repeated_results _
           [PDict [("date", PStr "May 1"); ("values", PList [PDict [("value", PInt 40)]])]]
           (PDict [("date", PStr "May 1"); ("values", PList [PDict [("value", PInt 90)]])])
           [PDict [("date", PStr "May 2"); ("values", PList [PDict [("value", PInt 10)]])]]
           [("May 1", [[("value", PInt 40)]])]
           "May 1" [[("value", PInt 90)]]
           [("May 2", [[("value", PInt 10)]])] eq_refl eq_refl).
  - repeat constructor. by eexists.
  - by eexists.
  - repeat constructor. by eexists.
  - done.
  - done.
  - repeat constructor. done.
Defined.

(** ** Required and optional settings *)

Section SettingsProperties.

Context {services : Services}.

(** C8, amended: for a configuration that has the key of the service,
    [keywords] is required: without it the collection run raises
    [KeyError] before anything else happens.  With keywords and a list of
    regions, and the [trending_searches] setting absent or a mapping, the
    collection run proceeds, and each optional setting that is absent gets
    its default: "today 3-m" for the timeframe, [False] for the enabled
    flag (then nothing is requested), 20 for the count (then at most 20
    items are kept) and "trends_data.json" for the output file. *)
Theorem keywords_required_others_default self cfg (section : option dict) w :
  TrendsCollector_init (PDict cfg) = Ok self ->
  dict_lookup "trending_searches" cfg = PDict <$> section ->
  (dict_lookup "keywords" cfg = None ->
   collect_all_trends self w = (Raise (Exn KeyError "'keywords'"), w) /\
   run self w = (Raise (Exn KeyError "'keywords'"), w)) /\
  (forall keywords rs,
      dict_lookup "keywords" cfg = Some keywords ->
      dict_lookup "regions" cfg = Some (PList rs) ->
      forallb is_region rs = true ->
      let enabled := default (PBool false) (section ≫= dict_lookup "enabled") in
      exists data w',
        collect_all_trends self w
        = (Ok (PDict
                 [("metadata",
                   PDict [("collection_time", PStr (isoformat (readings w)));
                          ("keywords", keywords);
                          ("total_regions", PInt (Z.of_nat (length rs)));
                          ("timeframe",
                           default (PStr "today 3-m") (dict_lookup "timeframe" cfg));
                          ("trending_searches_enabled", enabled);
                          ("source", PStr "SerpAPI Google Trends");
                          ("api_usage_note",
                           PStr "Each request uses your SerpAPI quota")]);
                  ("trending_searches_data", PList data)]),
           w') /\
        requests w'
        = requests w ++
          (if truthy enabled
           then (fun r => trending_params self (region_code_of r)) <$> rs
           else []) /\
        (truthy enabled = false -> data = [])) /\
  (configured_count self = Ok (default (PInt 20) (section ≫= dict_lookup "count")) /\
   forall code name w0 results ds,
     section ≫= dict_lookup "count" = None ->
     client (length (requests w0)) (trending_params self code) = Response results ->
     dict_lookup "trending_searches" results = Some (PList (PDict <$> ds)) ->
     exists v w1,
       collect_trending_searches self code name w0 = (Ok v, w1) /\
       field "trending_searches" v
       = Some (PList (PDict <$> (trend_record <$> take 20 ds)))) /\
  (forall data simple w0,
      dict_lookup "output_file" cfg = None ->
      refused "trends_data.json" = None ->
      refused "trends_data_simple.json" = None ->
      create_simple_format data = Ok simple ->
      exists w1,
        save_to_json self data PNone w0 = (Ok tt, w1) /\
        files w1 !! "trends_data.json" = Some data /\
        files w1 !! "trends_data_simple.json" = Some simple).
Proof.
  intros Hinit Hsec.
  assert (config self = PDict cfg) as Hcfg.
  { apply TrendsCollector_init_ok in Hinit as (cfg' & key & [= <-] & _ & _ & ->).
    done. }
  assert (configured_enabled self
          = Ok (default (PBool false) (section ≫= dict_lookup "enabled"))) as Hen.
  { unfold configured_enabled. rewrite Hcfg. simpl. unfold dict_get. rewrite Hsec.
    destruct section as [sec|]; simpl; [|done].
    unfold dict_get. by destruct (dict_lookup "enabled" sec). }
  assert (configured_count self
          = Ok (default (PInt 20) (section ≫= dict_lookup "count"))) as Hcount.
  { unfold configured_count. rewrite Hcfg. simpl. unfold dict_get. rewrite Hsec.
    destruct section as [sec|]; simpl; [|done].
    unfold dict_get. by destruct (dict_lookup "count" sec). }
  split_and!.
  - intros Hkw. unfold run, collect_all_trends, bind, lift.
    rewrite Hcfg. simpl. by rewrite Hkw.
  - intros keywords rs Hkw Hrs Hok enabled.
    rewrite (collect_all_trends_eq _ _ _ _ _ _ Hcfg Hkw Hrs Hen).
    destruct (regions_loop_effects self enabled (PList rs) _ eq_refl rs 0%nat []
                (tick w) Hok) as (data & w' & Hloop & Hreq & _); [simpl; lia|].
    fold enabled. rewrite Hloop. exists data, w'. split_and!.
    + unfold dict_get. by destruct (dict_lookup "timeframe" cfg).
    + done.
    + intros Hfalse.
      destruct (regions_loop_disabled self enabled (PList rs) _ Hfalse eq_refl rs
                  0%nat [] (tick w) Hok) as (w'' & Hloop' & _).
      rewrite Hloop in Hloop'. by injection Hloop' as -> _.
  - done.
  - intros code name w0 results ds Hnone Hc Hl.
    rewrite Hnone in Hcount. simpl in Hcount.
    apply (collect_trending_searches_kept self code name w0 results (PInt 20)
             (Some 20) (PDict <$> ds) (take 20 ds)); try done.
    simpl. by rewrite fmap_take.
  - intros data simple w0 Hout Hfull Hsimple Hfmt.
    assert (output_path cfg PNone = PStr "trends_data.json") as Hpath.
    { unfold output_path, dict_get. by rewrite Hout. }
    rewrite (save_to_json_eq _ _ _ _ _ _ Hcfg Hpath), Hfull, Hfmt.
    change (str_replace ".json" "_simple.json" "trends_data.json")
      with "trends_data_simple.json".
    rewrite Hsimple. eexists. split; [done|]. simpl. split.
    + rewrite lookup_insert_ne by done. by rewrite lookup_insert_eq.
    + by rewrite lookup_insert_eq.
Qed.

End SettingsProperties.

Lemma keywords_required_others_default_sample :
  exists data w',
    collect_all_trends (services := answering sample_results)
      (collector_of [poland; germany] (PDict [("enabled", PBool true)])) sample_world
    = (Ok (PDict
             [("metadata",
               PDict [("collection_time", PStr (sample_isoformat 0));
                      ("keywords", PList [PStr "python"]);
                      ("total_regions", PInt 2);
                      ("timeframe", PStr "today 3-m");
                      ("trending_searches_enabled", PBool true);
                      ("source", PStr "SerpAPI Google Trends");
                      ("api_usage_note", PStr "Each request uses your SerpAPI quota")]);
              ("trending_searches_data", PList data)]),
       w') /\
    length (requests w') = 2%nat /\
    configured_count (collector_of [poland; germany] (PDict [("enabled", PBool true)]))
    = Ok (PInt 20).
Proof.
  destruct (keywords_required_others_default (services := answering sample_results)
              (collector_of [poland; germany] (PDict [("enabled", PBool true)]))
              (config_of [poland; germany] (PDict [("enabled", PBool true)]))
              (Some [("enabled", PBool true)]) sample_world eq_refl eq_refl)
    as (_ & Hrun & [Hcount _] & _).
  destruct (Hrun (PList [PStr "python"]) [poland; germany] eq_refl eq_refl eq_refl)
    as (data & w' & Hall & Hreq & _).
  exists data, w'. split; [exact Hall|]. split; [|exact Hcount].
  by rewrite Hreq.
Defined.
